(** * Checkpoint restore and sync scripts (ops/hyperbolic)

    A shallow embedding of [hf_restore.py] and [hf_sync_loop.py].  Both
    scripts are glue around an external client library and the local file
    system, so the embedding keeps every external call visible: a run of a
    script is a function from an environment (the answers of the outside
    world) to the list of calls the script made and the way it ended. *)

From Stdlib Require Import String Ascii List ZArith Bool Lia.
Import ListNotations.
Local Open Scope string_scope.
Local Open Scope Z_scope.

(** ** The part of the Python runtime the scripts rely on *)

Module Py.

(** The exception classes the scripts tell apart.  [HfHubHTTPError] derives
    from [Exception]; [KeyboardInterrupt] derives from [BaseException] only,
    like [SystemExit] and [GeneratorExit], which [OtherBaseException] stands
    for.  The string is what [str(err)] gives. *)
Inductive exn : Type :=
| HfHubHTTPError (msg : string)
| OtherException (msg : string)
| KeyboardInterrupt
| OtherBaseException (msg : string).

Definition str (e : exn) : string :=
  match e with
  | HfHubHTTPError m | OtherException m | OtherBaseException m => m
  | KeyboardInterrupt => ""
  end.

Definition isinstance_HfHubHTTPError (e : exn) : bool :=
  match e with HfHubHTTPError _ => true | _ => false end.

Definition isinstance_Exception (e : exn) : bool :=
  match e with HfHubHTTPError _ | OtherException _ => true | _ => false end.

Definition isinstance_KeyboardInterrupt (e : exn) : bool :=
  match e with KeyboardInterrupt => true | _ => false end.

(** Truthiness of a list: [if xs] holds exactly for a non-empty list. *)
Definition truthy {A : Type} (xs : list A) : bool :=
  match xs with [] => false | _ :: _ => true end.

(** [str.lower] on the characters that matter here: strings are sequences of
    8-bit characters and the letters [A]..[Z] are mapped to [a]..[z]. *)
Definition lower_ascii (c : ascii) : ascii :=
  let n := nat_of_ascii c in
  if (Nat.leb 65 n && Nat.leb n 90)%bool then ascii_of_nat (n + 32) else c.

Fixpoint lower (s : string) : string :=
  match s with
  | EmptyString => EmptyString
  | String c rest => String (lower_ascii c) (lower rest)
  end.

(** Membership of a string in a set literal. *)
Definition str_in (s : string) (set : list string) : bool :=
  existsb (String.eqb s) set.

Definition startswith_sep (s : string) : bool :=
  match s with String "/" _ => true | _ => false end.

Fixpoint endswith_sep (s : string) : bool :=
  match s with
  | EmptyString => false
  | String c EmptyString => Ascii.eqb c "/"
  | String _ rest => endswith_sep rest
  end.

(** [os.path.join(a, *p)] of posixpath: an absolute component discards what
    came before it, otherwise components are joined with one separator. *)
Fixpoint os_path_join (path : string) (p : list string) : string :=
  match p with
  | [] => path
  | b :: rest =>
      let path' :=
        if startswith_sep b then b
        else if (String.eqb path "" || endswith_sep path)%bool then path ++ b
        else path ++ "/" ++ b in
      os_path_join path' rest
  end.

End Py.
Export Py.

(** ** The outside world *)

Inductive repo_type : Type := model | dataset | space.

Definition repo_type_str (t : repo_type) : string :=
  match t with model => "model" | dataset => "dataset" | space => "space" end.

Inductive stream : Type := stdout | stderr.

(** The client object built by [HfApi(token=...)]. *)
Record HfApi : Type := { api_token : option string }.

(** Every call that leaves the script, with its arguments as the source
    passes them. *)
Inductive event : Type :=
| EvPrint (file : stream) (text : string)
| EvIsdir (path : string)
| EvMakedirs (path : string) (exist_ok : bool)
| EvGlob (pattern : string) (recursive : bool)
| EvHfApi (token : option string)
| EvCreateRepo (api : HfApi) (repo_id : string) (rt : repo_type)
               (private exist_ok : bool)
| EvUploadFolder (api : HfApi) (repo_id : string) (rt : repo_type)
                 (folder_path : string) (allow_patterns ignore_patterns : list string)
                 (commit_message : string)
| EvSnapshotDownload (repo_id : string) (rt : repo_type) (token : option string)
                     (local_dir : string) (local_dir_use_symlinks : bool)
                     (allow_patterns : list string) (resume_download : bool)
| EvNow
| EvSleep (seconds : Z).

Definition trace : Type := list event.

(** What a call that returns nothing can do: return ([None]) or raise. *)
Definition raised : Type := option exn.

(** The environment answers each call.  An answer may depend on everything
    the script did before (the first argument is the history of the process),
    so files may appear between two iterations and a remote call may fail on
    one attempt and succeed on the next. *)
Record Env : Type := {
  env_isdir : trace -> string -> bool;
  env_makedirs : trace -> string -> bool -> raised;
  env_glob : trace -> string -> bool -> exn + list string;
  env_create_repo : trace -> HfApi -> string -> repo_type -> bool -> bool -> raised;
  env_upload_folder :
    trace -> HfApi -> string -> repo_type -> string ->
    list string -> list string -> string -> raised;
  env_snapshot_download :
    trace -> string -> repo_type -> option string -> string -> bool ->
    list string -> bool -> raised;
  env_now : trace -> string;
  env_sleep : trace -> Z -> raised
}.

(** ** Computations *)

(** A computation ends by returning, by raising, or not at all within the
    iterations it was given ([Running]). *)
Inductive outcome (A : Type) : Type :=
| Ret (a : A)
| Raise (e : exn)
| Running.
Arguments Ret {A} a.
Arguments Raise {A} e.
Arguments Running {A}.

(** A computation reads the environment and the history so far and yields
    the events it adds, in order, with its outcome. *)
Definition M (A : Type) : Type := Env -> trace -> trace * outcome A.

Definition ret {A : Type} (a : A) : M A := fun _ _ => ([], Ret a).

Definition bind {A B : Type} (m : M A) (k : A -> M B) : M B :=
  fun env h =>
    let (t1, r1) := m env h in
    match r1 with
    | Ret a => let (t2, r2) := k a env (h ++ t1)%list in ((t1 ++ t2)%list, r2)
    | Raise e => (t1, Raise e)
    | Running => (t1, Running)
    end.

Declare Scope py_scope.
Delimit Scope py_scope with py.
Notation "x <- m ;; k" := (bind m (fun x => k))
  (at level 61, m at next level, right associativity) : py_scope.
Notation "m ;; k" := (bind m (fun _ => k))
  (at level 61, right associativity) : py_scope.
Local Open Scope py_scope.

(** [try: body  except ...:] where [handlers e] is the body of the first
    clause that matches [e], if one does. *)
Definition try_except {A : Type} (body : M A) (handlers : exn -> option (M A)) : M A :=
  fun env h =>
    let (t1, r1) := body env h in
    match r1 with
    | Raise e =>
        match handlers e with
        | Some handler =>
            let (t2, r2) := handler env (h ++ t1)%list in ((t1 ++ t2)%list, r2)
        | None => (t1, Raise e)
        end
    | _ => (t1, r1)
    end.

(** [while True: body] run for at most [fuel] iterations; the loop has no
    [break], so it ends only when the body raises. *)
Fixpoint while_true {A : Type} (fuel : nat) (body : M unit) : M A :=
  match fuel with
  | O => fun _ _ => ([], Running)
  | S n => body ;; while_true n body
  end.

Definition of_raised (r : raised) : outcome unit :=
  match r with None => Ret tt | Some e => Raise e end.

Definition of_sum {A : Type} (r : exn + A) : outcome A :=
  match r with inl e => Raise e | inr a => Ret a end.

Definition print (file : stream) (text : string) : M unit :=
  fun _ _ => ([EvPrint file text], Ret tt).

Definition os_path_isdir (path : string) : M bool :=
  fun env h => ([EvIsdir path], Ret (env_isdir env h path)).

Definition os_makedirs (path : string) (exist_ok : bool) : M unit :=
  fun env h => ([EvMakedirs path exist_ok], of_raised (env_makedirs env h path exist_ok)).

Definition glob_glob (pattern : string) (recursive : bool) : M (list string) :=
  fun env h => ([EvGlob pattern recursive], of_sum (env_glob env h pattern recursive)).

Definition new_HfApi (token : option string) : M HfApi :=
  fun _ _ => ([EvHfApi token], Ret {| api_token := token |}).

Definition create_repo (api : HfApi) (repo_id : string) (rt : repo_type)
    (private exist_ok : bool) : M unit :=
  fun env h =>
    ([EvCreateRepo api repo_id rt private exist_ok],
     of_raised (env_create_repo env h api repo_id rt private exist_ok)).

Definition upload_folder (api : HfApi) (repo_id : string) (rt : repo_type)
    (folder_path : string) (allow_patterns ignore_patterns : list string)
    (commit_message : string) : M unit :=
  fun env h =>
    ([EvUploadFolder api repo_id rt folder_path allow_patterns ignore_patterns commit_message],
     of_raised (env_upload_folder env h api repo_id rt folder_path
                  allow_patterns ignore_patterns commit_message)).

Definition snapshot_download (repo_id : string) (rt : repo_type) (token : option string)
    (local_dir : string) (local_dir_use_symlinks : bool)
    (allow_patterns : list string) (resume_download : bool) : M unit :=
  fun env h =>
    ([EvSnapshotDownload repo_id rt token local_dir local_dir_use_symlinks
        allow_patterns resume_download],
     of_raised (env_snapshot_download env h repo_id rt token local_dir
                  local_dir_use_symlinks allow_patterns resume_download)).

(** [dt.datetime.now(dt.timezone.utc).strftime("%Y-%m-%d %H:%M:%SZ")] *)
Definition utcnow_strftime : M string :=
  fun env h => ([EvNow], Ret (env_now env h)).

Definition time_sleep (seconds : Z) : M unit :=
  fun env h => ([EvSleep seconds], of_raised (env_sleep env h seconds)).

(** ** hf_restore.py *)

Module hf_restore.

Definition DEFAULT_ALLOW_PATTERNS : list string :=
  [ "base_checkpoints/**";
    "chatsft_checkpoints/**";
    "chatrl_checkpoints/**";
    "tokenizer/**";
    "report/**";
    "report.md";
    "identity_conversations.jsonl" ].

(** The namespace [parse_args] returns. *)
Record Args : Type := {
  repo_id : string;
  rtype : repo_type;
  local_dir : string;
  allow_pattern : list string;
  token : option string;
  skip_if_local : bool
}.

Definition has_local_checkpoints (local_dir : string) : M bool :=
  let pattern := os_path_join local_dir ["base_checkpoints"; "*"; "model_*.pt"] in
  found <- glob_glob pattern false ;;
  ret (truthy found).

Definition main (args : Args) : M Z :=
  os_makedirs (local_dir args) true ;;
  skip <- (if skip_if_local args then has_local_checkpoints (local_dir args)
           else ret false) ;;
  if skip then
    print stdout "[hf-restore] local base checkpoints already exist, skipping restore" ;;
    ret 0
  else
    let allow_patterns :=
      if truthy (allow_pattern args) then allow_pattern args
      else DEFAULT_ALLOW_PATTERNS in
    (* the [try] statement either falls through ([None]) or returns from one
       of its [except] clauses ([Some code]) *)
    returned <-
      try_except
        (print stdout ("[hf-restore] restoring from " ++ repo_type_str (rtype args) ++ ":"
                       ++ repo_id args ++ " -> " ++ local_dir args) ;;
         snapshot_download (repo_id args) (rtype args) (token args) (local_dir args)
           false allow_patterns true ;;
         ret None)
        (fun err =>
           if isinstance_HfHubHTTPError err then
             Some (print stderr ("[hf-restore] hub error (continuing): " ++ str err) ;;
                   ret (Some 0))
           else if isinstance_Exception err then
             Some (print stderr ("[hf-restore] unexpected restore error (continuing): "
                                 ++ str err) ;;
                   ret (Some 0))
           else None) ;;
    match returned with
    | Some code => ret code
    | None =>
        print stdout "[hf-restore] restore complete" ;;
        ret 0
    end.

End hf_restore.

(** ** hf_sync_loop.py *)

Module hf_sync_loop.

Definition DEFAULT_ALLOW_PATTERNS : list string :=
  [ "base_checkpoints/**";
    "chatsft_checkpoints/**";
    "chatrl_checkpoints/**";
    "tokenizer/**";
    "report/**";
    "report.md";
    "identity_conversations.jsonl" ].

Definition DEFAULT_IGNORE_PATTERNS : list string :=
  [ "**/*.tmp";
    "**/*.lock" ].

Definition parse_bool (value : string) : bool :=
  str_in (lower value) ["1"; "true"; "yes"; "y"].

Fixpoint any_matches (local_dir : string) (allow_patterns : list string) : M bool :=
  match allow_patterns with
  | [] => ret false
  | pattern :: rest =>
      found <- glob_glob (os_path_join local_dir [pattern]) true ;;
      if truthy found then ret true else any_matches local_dir rest
  end.

Definition sync_once (api : HfApi) (repo_id : string) (rt : repo_type) (private : bool)
    (local_dir : string) (allow_patterns ignore_patterns : list string) : M unit :=
  create_repo api repo_id rt private true ;;
  matched <- any_matches local_dir allow_patterns ;;
  if negb matched then
    print stdout "[hf-sync] no matching files yet, skipping upload"
  else
    timestamp <- utcnow_strftime ;;
    let commit_message := "checkpoint sync " ++ timestamp in
    print stdout ("[hf-sync] uploading artifacts from " ++ local_dir ++ " -> "
                  ++ repo_type_str rt ++ ":" ++ repo_id) ;;
    upload_folder api repo_id rt local_dir allow_patterns ignore_patterns
      commit_message ;;
    print stdout "[hf-sync] upload complete".

(** The namespace [parse_args] returns; [interval_seconds] is a Python int. *)
Record Args : Type := {
  repo_id : string;
  rtype : repo_type;
  private : string;
  local_dir : string;
  interval_seconds : Z;
  once : bool;
  allow_pattern : list string;
  ignore_pattern : list string;
  token : option string
}.

(** The two [except] clauses inside the loop. *)
Definition loop_handlers (err : exn) : option (M unit) :=
  if isinstance_HfHubHTTPError err then
    Some (print stderr ("[hf-sync] hub error: " ++ str err))
  else if isinstance_Exception err then
    Some (print stderr ("[hf-sync] unexpected error: " ++ str err))
  else None.

(** One pass through the body of [while True]. *)
Definition loop_body (api : HfApi) (args : Args) (private : bool)
    (allow_patterns ignore_patterns : list string) : M unit :=
  try_except
    (sync_once api (repo_id args) (rtype args) private (local_dir args)
       allow_patterns ignore_patterns)
    loop_handlers ;;
  time_sleep (Z.max 30 (interval_seconds args)).

(** [fuel] bounds the number of iterations of the loop that are run. *)
Definition main (fuel : nat) (args : Args) : M Z :=
  isdir <- os_path_isdir (local_dir args) ;;
  if negb isdir then
    print stderr ("[hf-sync] local directory does not exist: " ++ local_dir args) ;;
    ret 2
  else
    let allow_patterns :=
      if truthy (allow_pattern args) then allow_pattern args
      else DEFAULT_ALLOW_PATTERNS in
    let ignore_patterns :=
      if truthy (ignore_pattern args) then ignore_pattern args
      else DEFAULT_IGNORE_PATTERNS in
    let private := parse_bool (private args) in
    api <- new_HfApi (token args) ;;
    try_except
      (if once args then
         sync_once api (repo_id args) (rtype args) private (local_dir args)
           allow_patterns ignore_patterns ;;
         ret 0
       else
         while_true fuel (loop_body api args private allow_patterns ignore_patterns))
      (fun err =>
         if isinstance_KeyboardInterrupt err then
           Some (print stdout "[hf-sync] interrupted" ;; ret 0)
         else None).

End hf_sync_loop.

(** ** How a script run ends

    Both files end in [raise SystemExit(main())]: the value [main] returns is
    the exit code, and an exception that leaves [main] ends the process with a
    traceback. *)
Inductive process_end : Type :=
| Exited (code : Z)
| Traceback (e : exn)
| StillRunning.

Definition script (r : trace * outcome Z) : trace * process_end :=
  (fst r,
   match snd r with
   | Ret code => Exited code
   | Raise e => Traceback e
   | Running => StillRunning
   end).

(** ** Observations on runs *)

Definition is_glob (ev : event) : bool :=
  match ev with EvGlob _ _ => true | _ => false end.

Definition is_create_repo (ev : event) : bool :=
  match ev with EvCreateRepo _ _ _ _ _ => true | _ => false end.

Definition is_upload_folder (ev : event) : bool :=
  match ev with EvUploadFolder _ _ _ _ _ _ _ => true | _ => false end.

Definition is_snapshot_download (ev : event) : bool :=
  match ev with EvSnapshotDownload _ _ _ _ _ _ _ => true | _ => false end.

Definition is_sleep (ev : event) : bool :=
  match ev with EvSleep _ => true | _ => false end.

(** Building the client or talking to the hub. *)
Definition is_remote (ev : event) : bool :=
  match ev with
  | EvHfApi _ | EvCreateRepo _ _ _ _ _ | EvUploadFolder _ _ _ _ _ _ _
  | EvSnapshotDownload _ _ _ _ _ _ _ => true
  | _ => false
  end.

Definition calls (kind : event -> bool) (t : trace) : bool := existsb kind t.

Definition count (kind : event -> bool) (t : trace) : nat := List.length (filter kind t).

(** Every event a computation adds satisfies [P], whatever the environment. *)
Definition emits {A : Type} (P : event -> Prop) (m : M A) : Prop :=
  forall env h, Forall P (fst (m env h)).

(** The file system is a snapshot [fs]: [glob] never fails and its answer
    does not change while the script runs. *)
Definition glob_snapshot (env : Env) (fs : string -> bool -> list string) : Prop :=
  forall h pattern recursive, env_glob env h pattern recursive = inr (fs pattern recursive).

(** Whatever a sync attempt can raise in [env] derives from [Exception]. *)
Definition attempts_raise_Exception (env : Env) : Prop :=
  (forall h api r t p x e,
      env_create_repo env h api r t p x = Some e -> isinstance_Exception e = true)
  /\ (forall h pattern recursive e,
      env_glob env h pattern recursive = inl e -> isinstance_Exception e = true)
  /\ (forall h api r t f a i c e,
      env_upload_folder env h api r t f a i c = Some e -> isinstance_Exception e = true).

Definition sleep_returns (env : Env) : Prop :=
  forall h seconds, env_sleep env h seconds = None.

(** An outcome a [try ... except Exception] clause copes with: a return, or
    an error that derives from [Exception]. *)
Definition benign {A : Type} (r : outcome A) : Prop :=
  match r with
  | Ret _ => True
  | Raise e => isinstance_Exception e = true
  | Running => False
  end.

(** The line the loop of the sync script writes to stderr for an error it
    caught. *)
Definition loop_log (e : exn) : string :=
  if isinstance_HfHubHTTPError e then "[hf-sync] hub error: " ++ str e
  else "[hf-sync] unexpected error: " ++ str e.

(** The line the restore script writes to stderr for an error it caught. *)
Definition restore_log (e : exn) : string :=
  if isinstance_HfHubHTTPError e then "[hf-restore] hub error (continuing): " ++ str e
  else "[hf-restore] unexpected restore error (continuing): " ++ str e.

(** The events of a sync attempt after its [create_repo] call. *)
Definition after_create_repo (api : HfApi) (repo_id : string) (rt : repo_type)
    (local_dir : string) (allow ignore : list string) : M unit :=
  bind (hf_sync_loop.any_matches local_dir allow)
    (fun matched =>
       if negb matched then
         print stdout "[hf-sync] no matching files yet, skipping upload"
       else
         bind utcnow_strftime
           (fun timestamp =>
              bind (print stdout ("[hf-sync] uploading artifacts from " ++ local_dir
                                  ++ " -> " ++ repo_type_str rt ++ ":" ++ repo_id))
                (fun _ =>
                   bind (upload_folder api repo_id rt local_dir allow ignore
                           ("checkpoint sync " ++ timestamp))
                     (fun _ => print stdout "[hf-sync] upload complete")))).

(** The one pattern the restore script looks for before it downloads. *)
Definition local_checkpoints_pattern (local_dir : string) : string :=
  os_path_join local_dir ["base_checkpoints"; "*"; "model_*.pt"].

(** The two calls the restore script makes when it does not skip. *)
Definition restore_start (args : hf_restore.Args) : event :=
  EvPrint stdout ("[hf-restore] restoring from " ++ repo_type_str (hf_restore.rtype args)
                  ++ ":" ++ hf_restore.repo_id args ++ " -> " ++ hf_restore.local_dir args).

Definition restore_download (args : hf_restore.Args) (allow : list string) : event :=
  EvSnapshotDownload (hf_restore.repo_id args) (hf_restore.rtype args)
    (hf_restore.token args) (hf_restore.local_dir args) false allow true.

(** The arguments of the sync script with another [--private] value. *)
Definition with_private (value : string) (args : hf_sync_loop.Args) : hf_sync_loop.Args :=
  {| hf_sync_loop.repo_id := hf_sync_loop.repo_id args;
     hf_sync_loop.rtype := hf_sync_loop.rtype args;
     hf_sync_loop.private := value;
     hf_sync_loop.local_dir := hf_sync_loop.local_dir args;
     hf_sync_loop.interval_seconds := hf_sync_loop.interval_seconds args;
     hf_sync_loop.once := hf_sync_loop.once args;
     hf_sync_loop.allow_pattern := hf_sync_loop.allow_pattern args;
     hf_sync_loop.ignore_pattern := hf_sync_loop.ignore_pattern args;
     hf_sync_loop.token := hf_sync_loop.token args |}.

(** The events of one pass through the loop of the sync script: it opens with
    the [create_repo] call, closes with a sleep of [seconds], and has no other
    call of either kind in between. *)
Definition iteration (api : HfApi) (args : hf_sync_loop.Args) (seconds : Z)
    (block : trace) : Prop :=
  exists mid,
    block = (EvCreateRepo api (hf_sync_loop.repo_id args) (hf_sync_loop.rtype args)
               (hf_sync_loop.parse_bool (hf_sync_loop.private args)) true
             :: mid ++ [EvSleep seconds])%list
    /\ calls is_create_repo mid = false
    /\ calls is_sleep mid = false.

(** ** Concrete environments

    Environments over a fixed directory listing, used to run the scripts on
    concrete inputs.  Matching follows the shell-style rules of [glob]: [*]
    and [?] stay inside one path component and do not match a leading dot,
    and with [recursive] a component [**] spans any number of components. *)

Module Listing.

Fixpoint split_path (s : string) : list string :=
  match s with
  | EmptyString => [EmptyString]
  | String c rest =>
      if Ascii.eqb c "/" then EmptyString :: split_path rest
      else match split_path rest with
           | [] => [String c EmptyString]
           | seg :: segs => String c seg :: segs
           end
  end.

Fixpoint fnmatch (pat name : string) : bool :=
  match pat with
  | EmptyString => String.eqb name ""
  | String "*" pat' =>
      (fix star (n : string) : bool :=
         (fnmatch pat' n
          || match n with EmptyString => false | String _ n' => star n' end)%bool) name
  | String "?" pat' =>
      match name with EmptyString => false | String _ n' => fnmatch pat' n' end
  | String c pat' =>
      match name with
      | EmptyString => false
      | String d n' => (Ascii.eqb c d && fnmatch pat' n')%bool
      end
  end.

Definition hidden (name : string) : bool :=
  match name with String "." _ => true | _ => false end.

Definition component_matches (pat name : string) : bool :=
  ((negb (hidden name) || hidden pat) && fnmatch pat name)%bool.

Fixpoint components_match (recursive : bool) (pats names : list string) : bool :=
  match pats with
  | [] => match names with [] => true | _ :: _ => false end
  | p :: ps =>
      if (recursive && String.eqb p "**")%bool then
        (fix span (ns : list string) : bool :=
           (components_match recursive ps ns
            || match ns with
               | [] => false
               | n :: ns' => (negb (hidden n) && span ns')%bool
               end)%bool) names
      else
        match names with
        | [] => false
        | n :: ns => (component_matches p n && components_match recursive ps ns)%bool
        end
  end.

Definition glob (paths : list string) (pattern : string) (recursive : bool) : list string :=
  filter (fun path => components_match recursive (split_path pattern) (split_path path))
         paths.

(** The world at rest: [dirs] and [files] exist, nothing changes and no call
    fails. *)
Definition quiet (dirs files : list string) : Env :=
  {| env_isdir := fun _ path => str_in path dirs;
     env_makedirs := fun _ _ _ => None;
     env_glob := fun _ pattern recursive => inr (glob (dirs ++ files)%list pattern recursive);
     env_create_repo := fun _ _ _ _ _ _ => None;
     env_upload_folder := fun _ _ _ _ _ _ _ _ => None;
     env_snapshot_download := fun _ _ _ _ _ _ _ _ => None;
     env_now := fun _ => "2025-01-01 00:00:00Z";
     env_sleep := fun _ _ => None |}.

Definition with_makedirs (f : trace -> string -> bool -> raised) (env : Env) : Env :=
  {| env_isdir := env_isdir env;
     env_makedirs := f;
     env_glob := env_glob env;
     env_create_repo := env_create_repo env;
     env_upload_folder := env_upload_folder env;
     env_snapshot_download := env_snapshot_download env;
     env_now := env_now env;
     env_sleep := env_sleep env |}.

Definition with_create_repo
    (f : trace -> HfApi -> string -> repo_type -> bool -> bool -> raised) (env : Env) : Env :=
  {| env_isdir := env_isdir env;
     env_makedirs := env_makedirs env;
     env_glob := env_glob env;
     env_create_repo := f;
     env_upload_folder := env_upload_folder env;
     env_snapshot_download := env_snapshot_download env;
     env_now := env_now env;
     env_sleep := env_sleep env |}.

Definition with_snapshot_download
    (f : trace -> string -> repo_type -> option string -> string -> bool ->
         list string -> bool -> raised) (env : Env) : Env :=
  {| env_isdir := env_isdir env;
     env_makedirs := env_makedirs env;
     env_glob := env_glob env;
     env_create_repo := env_create_repo env;
     env_upload_folder := env_upload_folder env;
     env_snapshot_download := f;
     env_now := env_now env;
     env_sleep := env_sleep env |}.

Definition with_sleep (f : trace -> Z -> raised) (env : Env) : Env :=
  {| env_isdir := env_isdir env;
     env_makedirs := env_makedirs env;
     env_glob := env_glob env;
     env_create_repo := env_create_repo env;
     env_upload_folder := env_upload_folder env;
     env_snapshot_download := env_snapshot_download env;
     env_now := env_now env;
     env_sleep := f |}.

(** A data directory after some training: checkpoints, tokenizer, report. *)
Definition trained_dirs : list string :=
  [ "/data/nanochat";
    "/data/nanochat/base_checkpoints";
    "/data/nanochat/base_checkpoints/d20";
    "/data/nanochat/tokenizer" ].

Definition trained_files : list string :=
  [ "/data/nanochat/base_checkpoints/d20/model_000650.pt";
    "/data/nanochat/base_checkpoints/d20/meta_000650.json";
    "/data/nanochat/tokenizer/tokenizer.pkl";
    "/data/nanochat/report.md";
    "/data/nanochat/scratch.tmp" ].

Definition trained : Env := quiet trained_dirs trained_files.

(** A data directory holding a tokenizer and a report but no checkpoint. *)
Definition tokenizer_only : Env :=
  quiet [ "/data/nanochat"; "/data/nanochat/tokenizer" ]
        [ "/data/nanochat/tokenizer/tokenizer.pkl"; "/data/nanochat/report.md" ].

(** No data directory at all. *)
Definition missing : Env := quiet [] [].

(** An existing but empty data directory. *)
Definition fresh : Env := quiet [ "/data/nanochat" ] [].

(** The hub refuses every [create_repo]. *)
Definition hub_down (env : Env) : Env :=
  with_create_repo (fun _ _ _ _ _ _ => Some (HfHubHTTPError "401 Unauthorized")) env.

(** The hub refuses the first [create_repo] of the process and accepts the
    later ones. *)
Definition hub_flaky (env : Env) : Env :=
  with_create_repo
    (fun h _ _ _ _ _ =>
       if existsb is_create_repo h then None
       else Some (HfHubHTTPError "503 Service Unavailable")) env.

(** [--local-dir] names a regular file, so [makedirs] fails. *)
Definition not_a_directory (env : Env) : Env :=
  with_makedirs
    (fun _ _ _ => Some (OtherException "[Errno 17] File exists: '/data/nanochat'")) env.

(** The repository does not exist yet. *)
Definition repo_not_found (env : Env) : Env :=
  with_snapshot_download
    (fun _ _ _ _ _ _ _ _ => Some (HfHubHTTPError "404 Client Error: Repository Not Found"))
    env.

(** Ctrl-C arrives during the download. *)
Definition download_interrupted (env : Env) : Env :=
  with_snapshot_download (fun _ _ _ _ _ _ _ _ => Some KeyboardInterrupt) env.

(** Ctrl-C arrives during the [n]-th sleep (counting from 0). *)
Definition interrupted_at (n : nat) (env : Env) : Env :=
  with_sleep
    (fun h _ =>
       if Nat.eqb (count is_sleep h) n then Some KeyboardInterrupt
       else None) env.

Definition restore_args : hf_restore.Args :=
  {| hf_restore.repo_id := "user/nanochat-checkpoints";
     hf_restore.rtype := model;
     hf_restore.local_dir := "/data/nanochat";
     hf_restore.allow_pattern := [];
     hf_restore.token := Some "hf_token";
     hf_restore.skip_if_local := true |}.

Definition sync_args (once : bool) (interval : Z) : hf_sync_loop.Args :=
  {| hf_sync_loop.repo_id := "user/nanochat-checkpoints";
     hf_sync_loop.rtype := model;
     hf_sync_loop.private := "true";
     hf_sync_loop.local_dir := "/data/nanochat";
     hf_sync_loop.interval_seconds := interval;
     hf_sync_loop.once := once;
     hf_sync_loop.allow_pattern := [];
     hf_sync_loop.ignore_pattern := [];
     hf_sync_loop.token := Some "hf_token" |}.

(** A one-shot sync given [--allow-pattern tokenizer/**] and
    [--ignore-pattern *.bak], without a token. *)
Definition custom_sync_args : hf_sync_loop.Args :=
  {| hf_sync_loop.repo_id := "user/nanochat-checkpoints";
     hf_sync_loop.rtype := model;
     hf_sync_loop.private := "true";
     hf_sync_loop.local_dir := "/data/nanochat";
     hf_sync_loop.interval_seconds := 1200;
     hf_sync_loop.once := true;
     hf_sync_loop.allow_pattern := ["tokenizer/**"];
     hf_sync_loop.ignore_pattern := ["*.bak"];
     hf_sync_loop.token := None |}.


(** A restore given [--allow-pattern tokenizer/**], without a token. *)
Definition custom_restore_args : hf_restore.Args :=
  {| hf_restore.repo_id := "user/nanochat-checkpoints";
     hf_restore.rtype := model;
     hf_restore.local_dir := "/data/nanochat";
     hf_restore.allow_pattern := ["tokenizer/**"];
     hf_restore.token := None;
     hf_restore.skip_if_local := true |}.

(** The calls the scripts make in these runs. *)
Definition the_custom_download : event :=
  EvSnapshotDownload "user/nanochat-checkpoints" model None "/data/nanochat" false
    ["tokenizer/**"] true.

Definition the_download : event :=
  EvSnapshotDownload "user/nanochat-checkpoints" model (Some "hf_token")
    "/data/nanochat" false hf_restore.DEFAULT_ALLOW_PATTERNS true.

Definition the_upload : event :=
  EvUploadFolder {| api_token := Some "hf_token" |} "user/nanochat-checkpoints" model
    "/data/nanochat" hf_sync_loop.DEFAULT_ALLOW_PATTERNS
    hf_sync_loop.DEFAULT_IGNORE_PATTERNS "checkpoint sync 2025-01-01 00:00:00Z".

Definition the_custom_upload : event :=
  EvUploadFolder {| api_token := None |} "user/nanochat-checkpoints" model
    "/data/nanochat" ["tokenizer/**"] ["*.bak"] "checkpoint sync 2025-01-01 00:00:00Z".

End Listing.


(** ** Further observations *)

Definition is_isdir (ev : event) : bool :=
  match ev with EvIsdir _ => true | _ => false end.

Definition is_makedirs (ev : event) : bool :=
  match ev with EvMakedirs _ _ => true | _ => false end.

Definition is_hfapi (ev : event) : bool :=
  match ev with EvHfApi _ => true | _ => false end.

(** The lookup [any_matches] makes for one pattern. *)
Definition glob_event (local_dir pattern : string) : event :=
  EvGlob (os_path_join local_dir [pattern]) true.

(** The lines that report success, and the one that reports Ctrl-C. *)
Definition upload_complete : event := EvPrint stdout "[hf-sync] upload complete".

Definition restore_complete : event := EvPrint stdout "[hf-restore] restore complete".

Definition interrupted : event := EvPrint stdout "[hf-sync] interrupted".


(** The hub accepts every [create_repo] call. *)
Definition create_repo_returns (env : Env) : Prop :=
  forall h api r t p x, env_create_repo env h api r t p x = None.

(** The hub refuses every [create_repo] call. *)
Definition create_repo_always_raises (env : Env) : Prop :=
  forall h api r t p x, env_create_repo env h api r t p x <> None.

(** The lists [main] of the sync script works with. *)
Definition sync_allow (args : hf_sync_loop.Args) : list string :=
  if truthy (hf_sync_loop.allow_pattern args) then hf_sync_loop.allow_pattern args
  else hf_sync_loop.DEFAULT_ALLOW_PATTERNS.

Definition sync_ignore (args : hf_sync_loop.Args) : list string :=
  if truthy (hf_sync_loop.ignore_pattern args) then hf_sync_loop.ignore_pattern args
  else hf_sync_loop.DEFAULT_IGNORE_PATTERNS.

(** The list [main] of the restore script works with. *)
Definition restore_allow (args : hf_restore.Args) : list string :=
  if truthy (hf_restore.allow_pattern args) then hf_restore.allow_pattern args
  else hf_restore.DEFAULT_ALLOW_PATTERNS.

(** The body of the outer [try] of the sync script, as [main] runs it. *)
Definition sync_try_body (fuel : nat) (args : hf_sync_loop.Args) : M Z :=
  let api := {| api_token := hf_sync_loop.token args |} in
  let private := hf_sync_loop.parse_bool (hf_sync_loop.private args) in
  if hf_sync_loop.once args then
    bind (hf_sync_loop.sync_once api (hf_sync_loop.repo_id args) (hf_sync_loop.rtype args)
            private (hf_sync_loop.local_dir args) (sync_allow args) (sync_ignore args))
      (fun _ => ret 0)
  else
    while_true fuel
      (hf_sync_loop.loop_body api args private (sync_allow args) (sync_ignore args)).

(** The sync attempt [main] makes with [--once], right after it built the
    client. *)
Definition once_attempt (args : hf_sync_loop.Args) (env : Env) (h : trace)
    : trace * outcome unit :=
  hf_sync_loop.sync_once {| api_token := hf_sync_loop.token args |}
    (hf_sync_loop.repo_id args) (hf_sync_loop.rtype args)
    (hf_sync_loop.parse_bool (hf_sync_loop.private args))
    (hf_sync_loop.local_dir args) (sync_allow args) (sync_ignore args) env
    ((h ++ [EvIsdir (hf_sync_loop.local_dir args)])
     ++ [EvHfApi (hf_sync_loop.token args)])%list.

(** What [snapshot_download] answers the restore script, asked at the point
    where the script calls it. *)
Definition restore_answer (args : hf_restore.Args) (env : Env) (h : trace) : raised :=
  env_snapshot_download env
    (h ++ (EvMakedirs (hf_restore.local_dir args) true ::
           (if hf_restore.skip_if_local args
            then [EvGlob (local_checkpoints_pattern (hf_restore.local_dir args)) false]
            else []))
       ++ [restore_start args])%list
    (hf_restore.repo_id args) (hf_restore.rtype args) (hf_restore.token args)
    (hf_restore.local_dir args) false (restore_allow args) true.

(** What the check for local checkpoints is answered. *)
Definition restore_check (args : hf_restore.Args) (env : Env) (h : trace)
    : exn + list string :=
  env_glob env (h ++ [EvMakedirs (hf_restore.local_dir args) true])%list
    (local_checkpoints_pattern (hf_restore.local_dir args)) false.

(** The restore script gets as far as the download: [makedirs] returned, and
    the check for local checkpoints was not asked for or found nothing. *)
Definition restore_reaches_download (args : hf_restore.Args) (env : Env) (h : trace)
    : Prop :=
  env_makedirs env h (hf_restore.local_dir args) true = None
  /\ (hf_restore.skip_if_local args = false \/ restore_check args env h = inr []).

(** * Properties *)

Local Open Scope list_scope.

(** ** Equations of the computation combinators *)

Section Combinators.
Context {A B : Type}.

Lemma bind_trace (m : M A) (k : A -> M B) env h :
  fst (bind m k env h) =
  fst (m env h) ++
  match snd (m env h) with
  | Ret a => fst (k a env (h ++ fst (m env h)))
  | _ => []
  end.
Proof.
  unfold bind. destruct (m env h) as [t1 [a | e |]]; simpl.
  - destruct (k a env (h ++ t1)); reflexivity.
  - now rewrite app_nil_r.
  - now rewrite app_nil_r.
Qed.

Lemma bind_outcome (m : M A) (k : A -> M B) env h :
  snd (bind m k env h) =
  match snd (m env h) with
  | Ret a => snd (k a env (h ++ fst (m env h)))
  | Raise e => Raise e
  | Running => Running
  end.
Proof.
  unfold bind. destruct (m env h) as [t1 [a | e |]]; simpl; try reflexivity.
  destruct (k a env (h ++ t1)); reflexivity.
Qed.

Lemma try_except_trace (body : M A) handlers env h :
  fst (try_except body handlers env h) =
  fst (body env h) ++
  match snd (body env h) with
  | Raise e =>
      match handlers e with
      | Some handler => fst (handler env (h ++ fst (body env h)))
      | None => []
      end
  | _ => []
  end.
Proof.
  unfold try_except. destruct (body env h) as [t1 [a | e |]]; simpl;
    try now rewrite app_nil_r.
  destruct (handlers e) as [handler |]; simpl.
  - destruct (handler env (h ++ t1)); reflexivity.
  - now rewrite app_nil_r.
Qed.

Lemma try_except_outcome (body : M A) handlers env h :
  snd (try_except body handlers env h) =
  match snd (body env h) with
  | Raise e =>
      match handlers e with
      | Some handler => snd (handler env (h ++ fst (body env h)))
      | None => Raise e
      end
  | r => r
  end.
Proof.
  unfold try_except. destruct (body env h) as [t1 [a | e |]]; simpl; try reflexivity.
  destruct (handlers e) as [handler |]; simpl; try reflexivity.
  destruct (handler env (h ++ t1)); reflexivity.
Qed.

End Combinators.

Lemma while_true_S {A : Type} (n : nat) (body : M unit) :
  @while_true A (S n) body = bind body (fun _ => while_true n body).
Proof. reflexivity. Qed.

(** ** Invariants of the events a computation adds *)

Section Emits.
Variable P : event -> Prop.

Lemma emits_ret {A : Type} (a : A) : emits P (ret a).
Proof. intros env h. constructor. Qed.

(** The continuation only has to be checked on values [m] can return. *)
Lemma emits_bind_ret {A B : Type} (m : M A) (k : A -> M B) :
  emits P m ->
  (forall a, (exists env h, snd (m env h) = Ret a) -> emits P (k a)) ->
  emits P (bind m k).
Proof.
  intros Hm Hk env h. rewrite bind_trace. apply Forall_app. split.
  - apply Hm.
  - destruct (snd (m env h)) eqn:E; try constructor. apply Hk. eauto.
Qed.

Lemma emits_bind {A B : Type} (m : M A) (k : A -> M B) :
  emits P m -> (forall a, emits P (k a)) -> emits P (bind m k).
Proof. intros Hm Hk. apply emits_bind_ret; auto. Qed.

Lemma emits_try_except {A : Type} (body : M A) handlers :
  emits P body ->
  (forall e handler, handlers e = Some handler -> emits P handler) ->
  emits P (try_except body handlers).
Proof.
  intros Hb Hh env h. rewrite try_except_trace. apply Forall_app. split.
  - apply Hb.
  - destruct (snd (body env h)) as [a | e |]; try constructor.
    destruct (handlers e) as [handler |] eqn:E; try constructor.
    eapply Hh; eassumption.
Qed.

Lemma emits_while_true {A : Type} (fuel : nat) (body : M unit) :
  emits P body -> emits P (@while_true A fuel body).
Proof.
  intros Hb. induction fuel as [| n IH].
  - intros env h. constructor.
  - rewrite while_true_S. apply emits_bind; auto.
Qed.

Lemma emits_if {A : Type} (b : bool) (m1 m2 : M A) :
  emits P m1 -> emits P m2 -> emits P (if b then m1 else m2).
Proof. destruct b; auto. Qed.

Lemma emits_one {A : Type} (ev : event) (r : Env -> trace -> outcome A) :
  P ev -> emits P (fun env h => ([ev], r env h)).
Proof. intros H env h. simpl. auto. Qed.

End Emits.

Lemma emits_any_matches P local_dir allow_patterns :
  (forall pattern, In pattern allow_patterns ->
                   P (EvGlob (os_path_join local_dir [pattern]) true)) ->
  emits P (hf_sync_loop.any_matches local_dir allow_patterns).
Proof.
  induction allow_patterns as [| pattern rest IH]; intros HP; simpl.
  - apply emits_ret.
  - apply emits_bind.
    + apply emits_one. apply HP. now left.
    + intros found. apply emits_if; [apply emits_ret |].
      apply IH. intros p Hp. apply HP. now right.
Qed.

Lemma emits_sync_once P api repo_id rt private local_dir allow ignore :
  P (EvCreateRepo api repo_id rt private true) ->
  (forall pattern, In pattern allow -> P (EvGlob (os_path_join local_dir [pattern]) true)) ->
  P EvNow ->
  (forall file text, P (EvPrint file text)) ->
  (forall msg, P (EvUploadFolder api repo_id rt local_dir allow ignore msg)) ->
  emits P (hf_sync_loop.sync_once api repo_id rt private local_dir allow ignore).
Proof.
  intros Hc Hg Hn Hp Hu. unfold hf_sync_loop.sync_once.
  apply emits_bind; [now apply emits_one |]. intros _.
  apply emits_bind; [now apply emits_any_matches |]. intros matched.
  apply emits_if; [now apply emits_one |].
  apply emits_bind; [now apply emits_one |]. intros timestamp.
  apply emits_bind; [now apply emits_one |]. intros _.
  apply emits_bind; [now apply emits_one |]. intros _.
  now apply emits_one.
Qed.


(** What [main] of the sync script can emit, call by call: every event of a
    run is one of those listed in the hypotheses. *)
Lemma emits_sync_main P fuel args :
  let api := {| api_token := hf_sync_loop.token args |} in
  let allow :=
    if truthy (hf_sync_loop.allow_pattern args) then hf_sync_loop.allow_pattern args
    else hf_sync_loop.DEFAULT_ALLOW_PATTERNS in
  let ignore :=
    if truthy (hf_sync_loop.ignore_pattern args) then hf_sync_loop.ignore_pattern args
    else hf_sync_loop.DEFAULT_IGNORE_PATTERNS in
  P (EvIsdir (hf_sync_loop.local_dir args)) ->
  P (EvHfApi (hf_sync_loop.token args)) ->
  (forall file text, P (EvPrint file text)) ->
  P (EvCreateRepo api (hf_sync_loop.repo_id args) (hf_sync_loop.rtype args)
       (hf_sync_loop.parse_bool (hf_sync_loop.private args)) true) ->
  (forall pattern, In pattern allow ->
                   P (EvGlob (os_path_join (hf_sync_loop.local_dir args) [pattern]) true)) ->
  P EvNow ->
  (forall msg, P (EvUploadFolder api (hf_sync_loop.repo_id args) (hf_sync_loop.rtype args)
                    (hf_sync_loop.local_dir args) allow ignore msg)) ->
  P (EvSleep (Z.max 30 (hf_sync_loop.interval_seconds args))) ->
  emits P (hf_sync_loop.main fuel args).
Proof.
  intros api allow ignore Hd Ha Hp Hc Hg Hn Hu Hs. unfold hf_sync_loop.main.
  apply emits_bind; [now apply emits_one |]. intros isdir.
  apply emits_if.
  { apply emits_bind; [now apply emits_one | intros _; apply emits_ret]. }
  apply emits_bind_ret; [now apply emits_one |].
  intros api' (env & h & Hret). simpl in Hret. injection Hret as <-.
  assert (Hsync : emits P (hf_sync_loop.sync_once api (hf_sync_loop.repo_id args)
                             (hf_sync_loop.rtype args)
                             (hf_sync_loop.parse_bool (hf_sync_loop.private args))
                             (hf_sync_loop.local_dir args) allow ignore))
    by now apply emits_sync_once.
  apply emits_try_except.
  - apply emits_if.
    + apply emits_bind; [exact Hsync | intros _; apply emits_ret].
    + apply emits_while_true. unfold hf_sync_loop.loop_body.
      apply emits_bind; [| intros _; now apply emits_one].
      apply emits_try_except; [exact Hsync |].
      intros e handler He. unfold hf_sync_loop.loop_handlers in He.
      destruct (isinstance_HfHubHTTPError e);
        [| destruct (isinstance_Exception e); [| discriminate]];
        injection He as <-; now apply emits_one.
  - intros e handler He. destruct (isinstance_KeyboardInterrupt e); [| discriminate].
    injection He as <-.
    apply emits_bind; [now apply emits_one | intros _; apply emits_ret].
Qed.

(** The same for [main] of the restore script. *)
Lemma emits_restore_main P args :
  let allow :=
    if truthy (hf_restore.allow_pattern args) then hf_restore.allow_pattern args
    else hf_restore.DEFAULT_ALLOW_PATTERNS in
  P (EvMakedirs (hf_restore.local_dir args) true) ->
  P (EvGlob (os_path_join (hf_restore.local_dir args)
               ["base_checkpoints"; "*"; "model_*.pt"]) false) ->
  (forall file text, P (EvPrint file text)) ->
  P (EvSnapshotDownload (hf_restore.repo_id args) (hf_restore.rtype args)
       (hf_restore.token args) (hf_restore.local_dir args) false allow true) ->
  emits P (hf_restore.main args).
Proof.
  intros allow Hm Hg Hp Hd. unfold hf_restore.main.
  apply emits_bind; [now apply emits_one |]. intros _.
  apply emits_bind.
  { apply emits_if; [| apply emits_ret]. unfold hf_restore.has_local_checkpoints.
    apply emits_bind; [now apply emits_one | intros found; apply emits_ret]. }
  intros skip. apply emits_if.
  { apply emits_bind; [now apply emits_one | intros _; apply emits_ret]. }
  apply emits_bind.
  - apply emits_try_except.
    + apply emits_bind; [now apply emits_one |]. intros _.
      apply emits_bind; [now apply emits_one | intros _; apply emits_ret].
    + intros e handler He.
      destruct (isinstance_HfHubHTTPError e);
        [| destruct (isinstance_Exception e); [| discriminate]];
        injection He as <-;
        (apply emits_bind; [now apply emits_one | intros _; apply emits_ret]).
  - intros [code |]; [apply emits_ret |].
    apply emits_bind; [now apply emits_one | intros _; apply emits_ret].
Qed.

(** ** Runs of [any_matches] and [sync_once] *)

Lemma calls_false_Forall kind t :
  calls kind t = false <-> Forall (fun ev => kind ev = false) t.
Proof.
  unfold calls. induction t as [| ev t IH]; simpl.
  - split; auto.
  - rewrite orb_false_iff, IH. split.
    + intros [H1 H2]. now constructor.
    + intros H. inversion H; subst. auto.
Qed.

Lemma calls_app kind t1 t2 : calls kind (t1 ++ t2) = (calls kind t1 || calls kind t2)%bool.
Proof. apply existsb_app. Qed.

Lemma count_app kind t1 t2 : count kind (t1 ++ t2) = (count kind t1 + count kind t2)%nat.
Proof. unfold count. now rewrite filter_app, length_app. Qed.

Lemma count_none kind t : calls kind t = false -> count kind t = 0%nat.
Proof.
  unfold calls, count. induction t as [| ev t IH]; simpl; auto.
  destruct (kind ev); simpl; [discriminate | auto].
Qed.

Lemma any_matches_benign env h local_dir allow_patterns :
  attempts_raise_Exception env ->
  benign (snd (hf_sync_loop.any_matches local_dir allow_patterns env h)).
Proof.
  intros (_ & Hglob & _). revert h.
  induction allow_patterns as [| pattern rest IH]; intros h; simpl.
  - exact I.
  - rewrite bind_outcome. unfold glob_glob at 1. simpl.
    destruct (env_glob env h _ true) as [e | found] eqn:E; simpl.
    + eapply Hglob; eassumption.
    + destruct (truthy found); [exact I | apply IH].
Qed.

Lemma any_matches_not_running env h local_dir allow_patterns :
  snd (hf_sync_loop.any_matches local_dir allow_patterns env h) <> Running.
Proof.
  revert h. induction allow_patterns as [| pattern rest IH]; intros h; simpl.
  - discriminate.
  - rewrite bind_outcome. unfold glob_glob at 1. simpl.
    destruct (env_glob env h _ true) as [e | found]; simpl; [discriminate |].
    destruct (truthy found); [discriminate | apply IH].
Qed.

(** On a snapshot of the file system [any_matches] returns, and it returns
    whether some pattern has a match. *)
Lemma any_matches_snapshot env fs h local_dir allow_patterns :
  glob_snapshot env fs ->
  snd (hf_sync_loop.any_matches local_dir allow_patterns env h) =
  Ret (existsb (fun pattern => truthy (fs (os_path_join local_dir [pattern]) true))
         allow_patterns).
Proof.
  intros Hfs. revert h.
  induction allow_patterns as [| pattern rest IH]; intros h; simpl.
  - reflexivity.
  - rewrite bind_outcome. unfold glob_glob at 1. simpl. rewrite Hfs. simpl.
    destruct (truthy (fs _ true)); [reflexivity | apply IH].
Qed.

Lemma truthy_nonempty {A : Type} (xs : list A) : truthy xs = true <-> xs <> [].
Proof. destruct xs; simpl; split; congruence. Qed.

Lemma sync_once_unfold api repo_id rt private local_dir allow ignore :
  hf_sync_loop.sync_once api repo_id rt private local_dir allow ignore =
  bind (create_repo api repo_id rt private true)
    (fun _ => after_create_repo api repo_id rt local_dir allow ignore).
Proof. reflexivity. Qed.

Lemma emits_after_create_repo P api repo_id rt local_dir allow ignore :
  (forall pattern, In pattern allow -> P (EvGlob (os_path_join local_dir [pattern]) true)) ->
  P EvNow ->
  (forall file text, P (EvPrint file text)) ->
  (forall msg, P (EvUploadFolder api repo_id rt local_dir allow ignore msg)) ->
  emits P (after_create_repo api repo_id rt local_dir allow ignore).
Proof.
  intros Hg Hn Hp Hu. unfold after_create_repo.
  apply emits_bind; [now apply emits_any_matches |]. intros matched.
  apply emits_if; [now apply emits_one |].
  apply emits_bind; [now apply emits_one |]. intros timestamp.
  apply emits_bind; [now apply emits_one |]. intros _.
  apply emits_bind; [now apply emits_one |]. intros _.
  now apply emits_one.
Qed.

Lemma any_matches_only_globs env h local_dir allow_patterns kind :
  (forall pattern recursive, kind (EvGlob pattern recursive) = false) ->
  calls kind (fst (hf_sync_loop.any_matches local_dir allow_patterns env h)) = false.
Proof.
  intros Hk. apply calls_false_Forall.
  apply (emits_any_matches (fun ev => kind ev = false)). auto.
Qed.

(** After [create_repo], the upload happens exactly when [any_matches]
    returns [True]. *)
Lemma after_create_repo_uploads env h api repo_id rt local_dir allow ignore :
  calls is_upload_folder (fst (after_create_repo api repo_id rt local_dir allow ignore env h))
  = true
  <-> snd (hf_sync_loop.any_matches local_dir allow env h) = Ret true.
Proof.
  unfold after_create_repo. rewrite bind_trace, calls_app.
  rewrite any_matches_only_globs by reflexivity. cbn [orb].
  destruct (snd (hf_sync_loop.any_matches local_dir allow env h)) as [[|] | e |];
    cbn [negb].
  - repeat (rewrite bind_trace; cbn -[append]).
    match goal with
    | |- context [env_upload_folder ?e ?h ?a ?r ?t ?f ?al ?ig ?c] =>
        destruct (env_upload_folder e h a r t f al ig c)
    end; split; reflexivity.
  - split; discriminate.
  - split; discriminate.
  - split; discriminate.
Qed.

Lemma sync_once_trace env h api repo_id rt private local_dir allow ignore :
  fst (hf_sync_loop.sync_once api repo_id rt private local_dir allow ignore env h) =
  EvCreateRepo api repo_id rt private true ::
  match env_create_repo env h api repo_id rt private true with
  | None =>
      fst (after_create_repo api repo_id rt local_dir allow ignore env
             (h ++ [EvCreateRepo api repo_id rt private true]))
  | Some _ => []
  end.
Proof.
  rewrite sync_once_unfold, bind_trace. simpl.
  destruct (env_create_repo env h api repo_id rt private true); reflexivity.
Qed.

Lemma sync_once_outcome env h api repo_id rt private local_dir allow ignore :
  snd (hf_sync_loop.sync_once api repo_id rt private local_dir allow ignore env h) =
  match env_create_repo env h api repo_id rt private true with
  | None =>
      snd (after_create_repo api repo_id rt local_dir allow ignore env
             (h ++ [EvCreateRepo api repo_id rt private true]))
  | Some e => Raise e
  end.
Proof.
  rewrite sync_once_unfold, bind_outcome. simpl.
  destruct (env_create_repo env h api repo_id rt private true); reflexivity.
Qed.

(** A sync attempt opens with its [create_repo] call and makes no second
    one, and it never sleeps. *)
Lemma sync_once_opens env h api repo_id rt private local_dir allow ignore :
  exists mid,
    fst (hf_sync_loop.sync_once api repo_id rt private local_dir allow ignore env h) =
    EvCreateRepo api repo_id rt private true :: mid
    /\ calls is_create_repo mid = false
    /\ calls is_sleep mid = false.
Proof.
  rewrite sync_once_trace. eexists. split; [reflexivity |].
  destruct (env_create_repo env h api repo_id rt private true); [now split |].
  split; apply calls_false_Forall;
    apply (emits_after_create_repo (fun ev => _ ev = false)); reflexivity.
Qed.

Lemma after_create_repo_benign env h api repo_id rt local_dir allow ignore :
  attempts_raise_Exception env ->
  benign (snd (after_create_repo api repo_id rt local_dir allow ignore env h)).
Proof.
  intros Henv. unfold after_create_repo. rewrite bind_outcome.
  pose proof (any_matches_benign env h local_dir allow Henv) as Hm.
  destruct (snd (hf_sync_loop.any_matches local_dir allow env h)) as [[|] | e |];
    cbn [negb benign] in *; auto.
  repeat (rewrite bind_outcome; cbn -[append]).
  destruct Henv as (_ & _ & Hup).
  match goal with
  | |- context [env_upload_folder ?e ?h ?a ?r ?t ?f ?al ?ig ?c] =>
      destruct (env_upload_folder e h a r t f al ig c) as [err |] eqn:E
  end; simpl; [eapply Hup; eassumption | exact I].
Qed.

Lemma sync_once_benign env h api repo_id rt private local_dir allow ignore :
  attempts_raise_Exception env ->
  benign (snd (hf_sync_loop.sync_once api repo_id rt private local_dir allow ignore env h)).
Proof.
  intros Henv. rewrite sync_once_outcome.
  destruct (env_create_repo env h api repo_id rt private true) as [e |] eqn:E.
  - destruct Henv as (Hc & _). simpl. eapply Hc; eassumption.
  - now apply after_create_repo_benign.
Qed.

Lemma sync_once_not_running env h api repo_id rt private local_dir allow ignore :
  snd (hf_sync_loop.sync_once api repo_id rt private local_dir allow ignore env h)
  <> Running.
Proof.
  rewrite sync_once_outcome.
  destruct (env_create_repo env h api repo_id rt private true); [discriminate |].
  unfold after_create_repo. rewrite bind_outcome.
  pose proof (any_matches_not_running env
                (h ++ [EvCreateRepo api repo_id rt private true]) local_dir allow) as Hm.
  destruct (snd (hf_sync_loop.any_matches local_dir allow env _)) as [[|] | e |];
    cbn [negb]; try discriminate; try contradiction.
  repeat (rewrite bind_outcome; cbn -[append]).
  match goal with
  | |- context [env_upload_folder ?e ?h ?a ?r ?t ?f ?al ?ig ?c] =>
      destruct (env_upload_folder e h a r t f al ig c)
  end; discriminate.
Qed.

(** ** Runs of the loop *)

Lemma loop_body_run env h api args private allow ignore :
  let s := hf_sync_loop.sync_once api (hf_sync_loop.repo_id args) (hf_sync_loop.rtype args)
             private (hf_sync_loop.local_dir args) allow ignore env h in
  let seconds := Z.max 30 (hf_sync_loop.interval_seconds args) in
  hf_sync_loop.loop_body api args private allow ignore env h =
  match snd s with
  | Ret _ => (fst s ++ [EvSleep seconds], of_raised (env_sleep env (h ++ fst s) seconds))
  | Raise e =>
      if isinstance_Exception e then
        ((fst s ++ [EvPrint stderr (loop_log e)]) ++ [EvSleep seconds],
         of_raised (env_sleep env (h ++ fst s ++ [EvPrint stderr (loop_log e)]) seconds))
      else (fst s, Raise e)
  | Running => (fst s, Running)
  end.
Proof.
  intros s seconds. unfold hf_sync_loop.loop_body, bind, try_except. fold s.
  destruct s as [t [[] | e |]]; cbn -[append Z.max]; try reflexivity.
  unfold hf_sync_loop.loop_handlers, loop_log.
  destruct e; cbn -[append Z.max]; reflexivity.
Qed.

(** While sync attempts fail only with errors deriving from [Exception] and
    the sleep returns, the loop keeps going: [n] iterations were run, and
    the loop is still running. *)
Lemma loop_blocks env api args allow ignore :
  attempts_raise_Exception env ->
  sleep_returns env ->
  forall n h,
  exists blocks,
    @while_true Z n
      (hf_sync_loop.loop_body api args
         (hf_sync_loop.parse_bool (hf_sync_loop.private args)) allow ignore) env h
    = (concat blocks, Running)
    /\ List.length blocks = n
    /\ Forall (iteration api args (Z.max 30 (hf_sync_loop.interval_seconds args))) blocks.
Proof.
  intros Henv Hsleep. induction n as [| n IH]; intros h.
  - exists []. repeat split; constructor.
  - rewrite while_true_S. unfold bind at 1. rewrite loop_body_run.
    destruct (sync_once_opens env h api (hf_sync_loop.repo_id args)
                (hf_sync_loop.rtype args)
                (hf_sync_loop.parse_bool (hf_sync_loop.private args))
                (hf_sync_loop.local_dir args) allow ignore) as (mid & Ht & Hc & Hs).
    pose proof (sync_once_benign env h api (hf_sync_loop.repo_id args)
                  (hf_sync_loop.rtype args)
                  (hf_sync_loop.parse_bool (hf_sync_loop.private args))
                  (hf_sync_loop.local_dir args) allow ignore Henv) as Hb.
    cbv zeta. rewrite Ht.
    destruct (snd (hf_sync_loop.sync_once _ _ _ _ _ _ _ env h)) as [[] | e |];
      cbn [benign] in Hb; try contradiction.
    + rewrite Hsleep. cbn [of_raised].
      match goal with
      | |- context [while_true n ?b env ?h'] => destruct (IH h') as (bs & E & Hl & Hf)
      end.
      rewrite E.
      exists ((EvCreateRepo api (hf_sync_loop.repo_id args) (hf_sync_loop.rtype args)
                 (hf_sync_loop.parse_bool (hf_sync_loop.private args)) true
               :: mid ++ [EvSleep (Z.max 30 (hf_sync_loop.interval_seconds args))]) :: bs).
      split; [| split].
      * cbn [concat]. reflexivity.
      * cbn [List.length]. now rewrite Hl.
      * constructor; [| exact Hf]. exists mid. auto.
    + rewrite Hb, Hsleep. cbn [of_raised].
      match goal with
      | |- context [while_true n ?b env ?h'] => destruct (IH h') as (bs & E & Hl & Hf)
      end.
      rewrite E.
      exists ((EvCreateRepo api (hf_sync_loop.repo_id args) (hf_sync_loop.rtype args)
                 (hf_sync_loop.parse_bool (hf_sync_loop.private args)) true
               :: (mid ++ [EvPrint stderr (loop_log e)])
                  ++ [EvSleep (Z.max 30 (hf_sync_loop.interval_seconds args))]) :: bs).
      split; [| split].
      * cbn [concat]. reflexivity.
      * cbn [List.length]. now rewrite Hl.
      * constructor; [| exact Hf]. exists (mid ++ [EvPrint stderr (loop_log e)]).
        rewrite !calls_app, Hc, Hs. auto.
Qed.

(** ** Runs of [main] of the sync script *)

Lemma sync_main_not_a_directory env h fuel args :
  env_isdir env h (hf_sync_loop.local_dir args) = false ->
  hf_sync_loop.main fuel args env h =
  ([EvIsdir (hf_sync_loop.local_dir args);
    EvPrint stderr ("[hf-sync] local directory does not exist: "
                    ++ hf_sync_loop.local_dir args)%string],
   Ret 2).
Proof.
  intros Hd. unfold hf_sync_loop.main, bind, os_path_isdir. rewrite Hd. reflexivity.
Qed.

(** What the outer [try] makes of the outcome of its body. *)
Lemma sync_main_run env h fuel args :
  env_isdir env h (hf_sync_loop.local_dir args) = true ->
  let api := {| api_token := hf_sync_loop.token args |} in
  let allow :=
    if truthy (hf_sync_loop.allow_pattern args) then hf_sync_loop.allow_pattern args
    else hf_sync_loop.DEFAULT_ALLOW_PATTERNS in
  let ignore :=
    if truthy (hf_sync_loop.ignore_pattern args) then hf_sync_loop.ignore_pattern args
    else hf_sync_loop.DEFAULT_IGNORE_PATTERNS in
  let private := hf_sync_loop.parse_bool (hf_sync_loop.private args) in
  let h0 := (h ++ [EvIsdir (hf_sync_loop.local_dir args)])
            ++ [EvHfApi (hf_sync_loop.token args)] in
  let body :=
    if hf_sync_loop.once args then
      bind (hf_sync_loop.sync_once api (hf_sync_loop.repo_id args) (hf_sync_loop.rtype args)
              private (hf_sync_loop.local_dir args) allow ignore) (fun _ => ret 0)
    else while_true fuel (hf_sync_loop.loop_body api args private allow ignore) in
  hf_sync_loop.main fuel args env h =
  (EvIsdir (hf_sync_loop.local_dir args) :: EvHfApi (hf_sync_loop.token args) ::
   fst (body env h0) ++
   match snd (body env h0) with
   | Raise KeyboardInterrupt => [EvPrint stdout "[hf-sync] interrupted"]
   | _ => []
   end,
   match snd (body env h0) with
   | Raise KeyboardInterrupt => Ret 0
   | r => r
   end).
Proof.
  intros Hd api allow ignore private h0 body.
  unfold hf_sync_loop.main, bind at 1, os_path_isdir. rewrite Hd. cbn [negb].
  unfold bind at 1, new_HfApi, try_except.
  fold api. fold allow. fold ignore. fold private. fold body.
  change ((h ++ [EvIsdir (hf_sync_loop.local_dir args)])
          ++ [EvHfApi (hf_sync_loop.token args)]) with h0.
  destruct (body env h0) as [t [code | e |]]; cbn [fst snd app];
    rewrite ?app_nil_r; try reflexivity.
  destruct e; cbn; rewrite ?app_nil_r; reflexivity.
Qed.

(** ** Runs of [main] of the restore script *)

Lemma restore_main_makedirs_raises env h args e :
  env_makedirs env h (hf_restore.local_dir args) true = Some e ->
  hf_restore.main args env h = ([EvMakedirs (hf_restore.local_dir args) true], Raise e).
Proof.
  intros Hm. unfold hf_restore.main, bind at 1, os_makedirs. rewrite Hm. reflexivity.
Qed.

Lemma restore_main_skips env h args found :
  env_makedirs env h (hf_restore.local_dir args) true = None ->
  hf_restore.skip_if_local args = true ->
  env_glob env (h ++ [EvMakedirs (hf_restore.local_dir args) true])
    (local_checkpoints_pattern (hf_restore.local_dir args)) false = inr found ->
  found <> [] ->
  hf_restore.main args env h =
  ([EvMakedirs (hf_restore.local_dir args) true;
    EvGlob (local_checkpoints_pattern (hf_restore.local_dir args)) false;
    EvPrint stdout "[hf-restore] local base checkpoints already exist, skipping restore"],
   Ret 0).
Proof.
  intros Hm Hs Hg Hf. unfold hf_restore.main, bind at 1, os_makedirs.
  rewrite Hm, Hs. cbn [of_raised].
  unfold bind at 1, hf_restore.has_local_checkpoints, bind at 1, glob_glob.
  fold (local_checkpoints_pattern (hf_restore.local_dir args)).
  rewrite Hg. destruct found as [| p ps]; [contradiction |]. reflexivity.
Qed.

Lemma restore_main_downloads env h args :
  let dir := hf_restore.local_dir args in
  let allow :=
    if truthy (hf_restore.allow_pattern args) then hf_restore.allow_pattern args
    else hf_restore.DEFAULT_ALLOW_PATTERNS in
  let pre :=
    EvMakedirs dir true ::
    (if hf_restore.skip_if_local args then [EvGlob (local_checkpoints_pattern dir) false]
     else []) in
  env_makedirs env h dir true = None ->
  (hf_restore.skip_if_local args = false
   \/ env_glob env (h ++ [EvMakedirs dir true]) (local_checkpoints_pattern dir) false
      = inr []) ->
  hf_restore.main args env h =
  match env_snapshot_download env (h ++ pre ++ [restore_start args])
          (hf_restore.repo_id args) (hf_restore.rtype args) (hf_restore.token args) dir
          false allow true with
  | None =>
      (pre ++ [restore_start args; restore_download args allow;
               EvPrint stdout "[hf-restore] restore complete"], Ret 0)
  | Some e =>
      if isinstance_Exception e then
        (pre ++ [restore_start args; restore_download args allow;
                 EvPrint stderr (restore_log e)], Ret 0)
      else (pre ++ [restore_start args; restore_download args allow], Raise e)
  end.
Proof.
  intros dir allow pre Hm Hskip. subst pre.
  unfold hf_restore.main, bind at 1, os_makedirs. fold dir. rewrite Hm. cbn [of_raised].
  assert (Hcheck :
    (if hf_restore.skip_if_local args then hf_restore.has_local_checkpoints dir
     else ret false) env (h ++ [EvMakedirs dir true]) =
    (if hf_restore.skip_if_local args then [EvGlob (local_checkpoints_pattern dir) false]
     else [], Ret false)).
  { destruct Hskip as [-> | Hg]; [reflexivity |].
    destruct (hf_restore.skip_if_local args); [| reflexivity].
    unfold hf_restore.has_local_checkpoints, bind, glob_glob.
    fold (local_checkpoints_pattern dir). rewrite Hg. reflexivity. }
  unfold bind at 1. rewrite Hcheck. fold allow.
  assert (EH :
    h ++ (EvMakedirs dir true ::
          (if hf_restore.skip_if_local args
           then [EvGlob (local_checkpoints_pattern dir) false] else []))
      ++ [restore_start args] =
    ((h ++ [EvMakedirs dir true]) ++
     (if hf_restore.skip_if_local args
      then [EvGlob (local_checkpoints_pattern dir) false] else []))
    ++ [restore_start args])
    by (rewrite <- !app_assoc; reflexivity).
  rewrite EH. clear EH.
  unfold try_except, bind, print, snapshot_download, ret, restore_log, restore_start,
    restore_download.
  cbn [fst snd app]. fold dir.
  destruct (env_snapshot_download env _ _ _ _ dir false allow true) as [e |];
    cbn [of_raised].
  - destruct e;
      cbn [isinstance_Exception isinstance_HfHubHTTPError str fst snd app];
      rewrite <- ?app_assoc; reflexivity.
  - rewrite <- ?app_assoc. reflexivity.
Qed.

(** ** What the scripts pass to the library *)

Lemma sync_main_upload_event fuel args env h api r t folder allow ignore msg :
  In (EvUploadFolder api r t folder allow ignore msg) (fst (hf_sync_loop.main fuel args env h)) ->
  allow = (if truthy (hf_sync_loop.allow_pattern args) then hf_sync_loop.allow_pattern args
           else hf_sync_loop.DEFAULT_ALLOW_PATTERNS)
  /\ ignore = (if truthy (hf_sync_loop.ignore_pattern args)
               then hf_sync_loop.ignore_pattern args
               else hf_sync_loop.DEFAULT_IGNORE_PATTERNS)
  /\ folder = hf_sync_loop.local_dir args.
Proof.
  intros Hin.
  pose proof (emits_sync_main
    (fun ev => match ev with
               | EvUploadFolder _ _ _ f a i _ =>
                   a = (if truthy (hf_sync_loop.allow_pattern args)
                        then hf_sync_loop.allow_pattern args
                        else hf_sync_loop.DEFAULT_ALLOW_PATTERNS)
                   /\ i = (if truthy (hf_sync_loop.ignore_pattern args)
                           then hf_sync_loop.ignore_pattern args
                           else hf_sync_loop.DEFAULT_IGNORE_PATTERNS)
                   /\ f = hf_sync_loop.local_dir args
               | _ => True
               end) fuel args) as H.
  cbv zeta in H.
  specialize (H I I (fun _ _ => I) I (fun _ _ => I) I (fun _ => conj eq_refl (conj eq_refl eq_refl)) I
                env h).
  rewrite Forall_forall in H. exact (H _ Hin).
Qed.

Lemma sync_main_create_repo_event fuel args env h api r t private exist_ok :
  In (EvCreateRepo api r t private exist_ok) (fst (hf_sync_loop.main fuel args env h)) ->
  private = hf_sync_loop.parse_bool (hf_sync_loop.private args) /\ exist_ok = true.
Proof.
  intros Hin.
  pose proof (emits_sync_main
    (fun ev => match ev with
               | EvCreateRepo _ _ _ p x =>
                   p = hf_sync_loop.parse_bool (hf_sync_loop.private args) /\ x = true
               | _ => True
               end) fuel args) as H.
  cbv zeta in H.
  specialize (H I I (fun _ _ => I) (conj eq_refl eq_refl) (fun _ _ => I) I (fun _ => I) I
                env h).
  rewrite Forall_forall in H. exact (H _ Hin).
Qed.

Lemma sync_main_sleep_event fuel args env h seconds :
  In (EvSleep seconds) (fst (hf_sync_loop.main fuel args env h)) ->
  seconds = Z.max 30 (hf_sync_loop.interval_seconds args).
Proof.
  intros Hin.
  pose proof (emits_sync_main
    (fun ev => match ev with
               | EvSleep s => s = Z.max 30 (hf_sync_loop.interval_seconds args)
               | _ => True
               end) fuel args) as H.
  cbv zeta in H.
  specialize (H I I (fun _ _ => I) I (fun _ _ => I) I (fun _ => I) eq_refl env h).
  rewrite Forall_forall in H. exact (H _ Hin).
Qed.

Lemma restore_main_download_event args env h r t tok dir symlinks allow resume :
  In (EvSnapshotDownload r t tok dir symlinks allow resume) (fst (hf_restore.main args env h)) ->
  allow = (if truthy (hf_restore.allow_pattern args) then hf_restore.allow_pattern args
           else hf_restore.DEFAULT_ALLOW_PATTERNS).
Proof.
  intros Hin.
  pose proof (emits_restore_main
    (fun ev => match ev with
               | EvSnapshotDownload _ _ _ _ _ a _ =>
                   a = (if truthy (hf_restore.allow_pattern args)
                        then hf_restore.allow_pattern args
                        else hf_restore.DEFAULT_ALLOW_PATTERNS)
               | _ => True
               end) args) as H.
  cbv zeta in H.
  specialize (H I I (fun _ _ => I) eq_refl env h).
  rewrite Forall_forall in H. exact (H _ Hin).
Qed.

Lemma restore_main_glob_event args env h pattern recursive :
  In (EvGlob pattern recursive) (fst (hf_restore.main args env h)) ->
  pattern = local_checkpoints_pattern (hf_restore.local_dir args) /\ recursive = false.
Proof.
  intros Hin.
  pose proof (emits_restore_main
    (fun ev => match ev with
               | EvGlob p r =>
                   p = local_checkpoints_pattern (hf_restore.local_dir args) /\ r = false
               | _ => True
               end) args) as H.
  cbv zeta in H.
  specialize (H I (conj eq_refl eq_refl) (fun _ _ => I) I env h).
  rewrite Forall_forall in H. exact (H _ Hin).
Qed.

Lemma truthy_false {A : Type} (xs : list A) : truthy xs = false <-> xs = [].
Proof. destruct xs; simpl; split; congruence. Qed.

Lemma given_or_default {A : Type} (given default chosen : list A) :
  chosen = (if truthy given then given else default) ->
  (given <> [] -> chosen = given) /\ (given = [] -> chosen = default).
Proof.
  intros ->. split.
  - intros H. apply truthy_nonempty in H. now rewrite H.
  - intros ->. reflexivity.
Qed.

(** * The claims *)

(** C7.  The restore script and the sync script carry the same default allow
    list: the two [DEFAULT_ALLOW_PATTERNS] constants are equal, element for
    element and in the same order, and they are the seven patterns
    [base_checkpoints/**], [chatsft_checkpoints/**], [chatrl_checkpoints/**],
    [tokenizer/**], [report/**], [report.md], [identity_conversations.jsonl].
    So when neither script is given an [--allow-pattern], the list the sync
    loop hands to [upload_folder] is the list the restore script hands to
    [snapshot_download]. *)
Theorem default_allow_patterns_agree :
  hf_restore.DEFAULT_ALLOW_PATTERNS = hf_sync_loop.DEFAULT_ALLOW_PATTERNS
  /\ hf_sync_loop.DEFAULT_ALLOW_PATTERNS =
     [ "base_checkpoints/**"; "chatsft_checkpoints/**"; "chatrl_checkpoints/**";
       "tokenizer/**"; "report/**"; "report.md"; "identity_conversations.jsonl" ]%string
  /\ (forall rargs renv rh sargs fuel senv sh
             r t tok dir symlinks downloaded resume api r' t' folder uploaded ignore msg,
         hf_restore.allow_pattern rargs = [] ->
         hf_sync_loop.allow_pattern sargs = [] ->
         In (EvSnapshotDownload r t tok dir symlinks downloaded resume)
            (fst (hf_restore.main rargs renv rh)) ->
         In (EvUploadFolder api r' t' folder uploaded ignore msg)
            (fst (hf_sync_loop.main fuel sargs senv sh)) ->
         uploaded = downloaded).
Proof.
  split; [reflexivity |]. split; [reflexivity |].
  intros rargs renv rh sargs fuel senv sh r t tok dir symlinks downloaded resume
         api r' t' folder uploaded ignore msg Hr Hs Hd Hu.
  apply restore_main_download_event in Hd.
  apply sync_main_upload_event in Hu. destruct Hu as (Hu & _).
  rewrite Hr in Hd. rewrite Hs in Hu. cbn [truthy] in Hd, Hu. subst. reflexivity.
Qed.

(** With the default arguments, a restore into a directory without
    checkpoints and a one-shot sync of a directory with checkpoints make
    their library calls with the same list. *)
Lemma default_allow_patterns_agree_witness :
  In Listing.the_download (fst (hf_restore.main Listing.restore_args Listing.tokenizer_only []))
  /\ In Listing.the_upload
        (fst (hf_sync_loop.main 0 (Listing.sync_args true 1200) Listing.trained []))
  /\ hf_sync_loop.DEFAULT_ALLOW_PATTERNS = hf_restore.DEFAULT_ALLOW_PATTERNS.
Proof.
  assert (Hd : In Listing.the_download
                 (fst (hf_restore.main Listing.restore_args Listing.tokenizer_only [])))
    by (vm_compute; auto 10).
  assert (Hu : In Listing.the_upload
                 (fst (hf_sync_loop.main 0 (Listing.sync_args true 1200) Listing.trained [])))
    by (vm_compute; auto 12).
  split; [exact Hd |]. split; [exact Hu |].
  exact (proj2 (proj2 default_allow_patterns_agree)
           Listing.restore_args Listing.tokenizer_only []
           (Listing.sync_args true 1200) 0%nat Listing.trained []
           _ _ _ _ _ _ _ _ _ _ _ _ _ _ eq_refl eq_refl Hd Hu).
Defined.

(** The events of the first sync attempt of a run are events of the run. *)
Lemma sync_main_contains_first_attempt fuel args env h ev :
  env_isdir env h (hf_sync_loop.local_dir args) = true ->
  hf_sync_loop.once args = true \/ fuel <> 0%nat ->
  In ev (fst (once_attempt args env h)) ->
  In ev (fst (hf_sync_loop.main fuel args env h)).
Proof.
  intros Hd Hmode Hin. rewrite (sync_main_run env h fuel args Hd). cbv zeta. cbn [fst].
  right. right. apply in_or_app. left.
  destruct (hf_sync_loop.once args) eqn:Honce.
  - rewrite bind_trace. apply in_or_app. left. exact Hin.
  - destruct Hmode as [Hmode | Hfuel]; [discriminate |].
    destruct fuel as [| n]; [contradiction |].
    rewrite while_true_S, bind_trace. apply in_or_app. left.
    rewrite loop_body_run. cbv zeta.
    unfold once_attempt, sync_allow, sync_ignore in Hin.
    destruct (snd (hf_sync_loop.sync_once _ _ _ _ _ _ _ env _)) as [[] | e |];
      [| destruct (isinstance_Exception e) |]; cbn [fst];
      try exact Hin; apply in_or_app; left; try exact Hin.
    apply in_or_app. left. exact Hin.
Qed.

(** With a hub that accepts [create_repo] and a file system on which some
    pattern matches, the first sync attempt uploads, with the lists of the
    run. *)
Lemma sync_first_attempt_uploads args env fs h :
  create_repo_returns env ->
  glob_snapshot env fs ->
  (exists pattern,
      In pattern (sync_allow args)
      /\ fs (os_path_join (hf_sync_loop.local_dir args) [pattern]) true <> []) ->
  exists msg,
    In (EvUploadFolder {| api_token := hf_sync_loop.token args |}
          (hf_sync_loop.repo_id args) (hf_sync_loop.rtype args)
          (hf_sync_loop.local_dir args) (sync_allow args) (sync_ignore args) msg)
       (fst (once_attempt args env h)).
Proof.
  intros Hc Hfs (pattern & Hin & Hne). unfold once_attempt.
  rewrite sync_once_trace, Hc.
  match goal with
  | |- context [after_create_repo ?api ?r ?t ?d ?al ?ig env ?h1] =>
      assert (Hup : calls is_upload_folder (fst (after_create_repo api r t d al ig env h1))
                    = true);
      [ apply after_create_repo_uploads;
        rewrite (any_matches_snapshot env fs _ _ _ Hfs); f_equal;
        apply existsb_exists; exists pattern;
        split; [exact Hin | now apply truthy_nonempty]
      | pose proof (emits_after_create_repo
          (fun ev => is_upload_folder ev = true ->
                     exists msg, ev = EvUploadFolder api r t d al ig msg)
          api r t d al ig) as Hem;
        assert (He : emits
          (fun ev => is_upload_folder ev = true ->
                     exists msg, ev = EvUploadFolder api r t d al ig msg)
          (after_create_repo api r t d al ig))
          by (apply Hem; try discriminate; intros; try discriminate; eauto);
        specialize (He env h1) ]
  end.
  unfold calls in Hup. apply existsb_exists in Hup. destruct Hup as (ev & Hev & Hk).
  rewrite Forall_forall in He. destruct (He ev Hev Hk) as (msg & ->).
  exists msg. right. exact Hev.
Qed.

(** C6.  The pattern lists handed to the library are the ones given on the
    command line when any were given, and the fixed defaults otherwise: a
    non-empty [--allow-pattern] list replaces the seven-entry default allow
    list as a whole, in both scripts, and in the sync script a non-empty
    [--ignore-pattern] list replaces the default ignore list
    [["**/*.tmp"; "**/*.lock"]] as a whole.  This is so of every
    [snapshot_download] and [upload_folder] call of every run, and the calls
    are made: the restore script that gets as far as the download calls
    [snapshot_download] with that list, and the sync script whose hub accepts
    [create_repo] and whose directory has a match calls [upload_folder] with
    those lists. *)
Theorem patterns_given_replace_defaults :
  (forall args env h r t tok dir symlinks allow resume,
      In (EvSnapshotDownload r t tok dir symlinks allow resume)
         (fst (hf_restore.main args env h)) ->
      (hf_restore.allow_pattern args <> [] -> allow = hf_restore.allow_pattern args)
      /\ (hf_restore.allow_pattern args = [] -> allow = hf_restore.DEFAULT_ALLOW_PATTERNS))
  /\ (forall fuel args env h api r t folder allow ignore msg,
      In (EvUploadFolder api r t folder allow ignore msg)
         (fst (hf_sync_loop.main fuel args env h)) ->
      ((hf_sync_loop.allow_pattern args <> [] -> allow = hf_sync_loop.allow_pattern args)
       /\ (hf_sync_loop.allow_pattern args = [] ->
           allow = hf_sync_loop.DEFAULT_ALLOW_PATTERNS))
      /\ ((hf_sync_loop.ignore_pattern args <> [] ->
           ignore = hf_sync_loop.ignore_pattern args)
          /\ (hf_sync_loop.ignore_pattern args = [] ->
              ignore = hf_sync_loop.DEFAULT_IGNORE_PATTERNS)))
  /\ List.length hf_restore.DEFAULT_ALLOW_PATTERNS = 7%nat
  /\ List.length hf_sync_loop.DEFAULT_ALLOW_PATTERNS = 7%nat
  /\ hf_sync_loop.DEFAULT_IGNORE_PATTERNS = ["**/*.tmp"; "**/*.lock"]%string
  /\ (forall args env h,
         restore_reaches_download args env h ->
         exists allow,
           In (EvSnapshotDownload (hf_restore.repo_id args) (hf_restore.rtype args)
                 (hf_restore.token args) (hf_restore.local_dir args) false allow true)
              (fst (hf_restore.main args env h))
           /\ (hf_restore.allow_pattern args <> [] -> allow = hf_restore.allow_pattern args)
           /\ (hf_restore.allow_pattern args = [] ->
               allow = hf_restore.DEFAULT_ALLOW_PATTERNS))
  /\ (forall fuel args env fs h,
         env_isdir env h (hf_sync_loop.local_dir args) = true ->
         hf_sync_loop.once args = true \/ fuel <> 0%nat ->
         create_repo_returns env ->
         glob_snapshot env fs ->
         (exists pattern,
             In pattern (sync_allow args)
             /\ fs (os_path_join (hf_sync_loop.local_dir args) [pattern]) true <> []) ->
         exists allow ignore msg,
           In (EvUploadFolder {| api_token := hf_sync_loop.token args |}
                 (hf_sync_loop.repo_id args) (hf_sync_loop.rtype args)
                 (hf_sync_loop.local_dir args) allow ignore msg)
              (fst (hf_sync_loop.main fuel args env h))
           /\ ((hf_sync_loop.allow_pattern args <> [] ->
                allow = hf_sync_loop.allow_pattern args)
               /\ (hf_sync_loop.allow_pattern args = [] ->
                   allow = hf_sync_loop.DEFAULT_ALLOW_PATTERNS))
           /\ ((hf_sync_loop.ignore_pattern args <> [] ->
                ignore = hf_sync_loop.ignore_pattern args)
               /\ (hf_sync_loop.ignore_pattern args = [] ->
                   ignore = hf_sync_loop.DEFAULT_IGNORE_PATTERNS))).
Proof.
  split; [| split; [| split; [| split; [| split; [| split]]]]]; try reflexivity.
  - intros args env h r t tok dir symlinks allow resume Hin.
    apply restore_main_download_event in Hin. now apply given_or_default.
  - intros fuel args env h api r t folder allow ignore msg Hin.
    apply sync_main_upload_event in Hin. destruct Hin as (Ha & Hi & _).
    split; now apply given_or_default.
  - intros args env h (Hm & Hskip). exists (restore_allow args). split.
    + rewrite (restore_main_downloads env h args Hm Hskip).
      destruct (env_snapshot_download env _ _ _ _ (hf_restore.local_dir args) false _ true)
        as [e |]; [destruct (isinstance_Exception e) |]; cbn [fst];
        right; apply in_or_app; right; right; left; reflexivity.
    + now apply given_or_default.
  - intros fuel args env fs h Hd Hmode Hc Hfs Hmatch.
    destruct (sync_first_attempt_uploads args env fs h Hc Hfs Hmatch) as (msg & Hin).
    exists (sync_allow args), (sync_ignore args), msg. split.
    + now apply sync_main_contains_first_attempt.
    + split; now apply given_or_default.
Qed.

(** A restore given [--allow-pattern tokenizer/**] downloads with exactly this
    list, and a one-shot sync given [--allow-pattern tokenizer/**] and
    [--ignore-pattern *.bak] uploads with exactly these two lists. *)
Lemma patterns_given_replace_defaults_witness :
  (In Listing.the_custom_download
      (fst (hf_restore.main Listing.custom_restore_args Listing.tokenizer_only []))
   /\ exists allow,
        In (EvSnapshotDownload "user/nanochat-checkpoints" model None "/data/nanochat"
              false allow true)
           (fst (hf_restore.main Listing.custom_restore_args Listing.tokenizer_only []))
        /\ allow = ["tokenizer/**"]%string)
  /\ (In Listing.the_custom_upload
         (fst (hf_sync_loop.main 0 Listing.custom_sync_args Listing.trained []))
      /\ exists allow ignore msg,
           In (EvUploadFolder {| api_token := None |} "user/nanochat-checkpoints" model
                 "/data/nanochat" allow ignore msg)
              (fst (hf_sync_loop.main 0 Listing.custom_sync_args Listing.trained []))
           /\ allow = ["tokenizer/**"]%string
           /\ ignore = ["*.bak"]%string).
Proof.
  split.
  - split; [vm_compute; auto 10 |].
    destruct (proj1 (proj2 (proj2 (proj2 (proj2 (proj2 patterns_given_replace_defaults)))))
                Listing.custom_restore_args Listing.tokenizer_only []
                (conj eq_refl (or_intror eq_refl)))
      as (allow & Hin & Hgiven & _).
    exists allow. split; [exact Hin | apply Hgiven; discriminate].
  - split; [vm_compute; auto 12 |].
    destruct (proj2 (proj2 (proj2 (proj2 (proj2 (proj2 patterns_given_replace_defaults)))))
                0%nat Listing.custom_sync_args Listing.trained
                (Listing.glob (Listing.trained_dirs ++ Listing.trained_files)) []
                eq_refl (or_introl eq_refl)
                (fun _ _ _ _ _ _ => eq_refl) (fun _ _ _ => eq_refl)
                (ex_intro _ "tokenizer/**"%string
                   (conj (or_introl eq_refl)
                      (fun H : Listing.glob (Listing.trained_dirs ++ Listing.trained_files)
                                 (os_path_join "/data/nanochat" ["tokenizer/**"%string]) true
                               = [] =>
                         match H in _ = l return match l with [] => False | _ => True end
                         with eq_refl => I end))))
      as (allow & ignore & msg & Hin & (Ha & _) & (Hi & _)).
    exists allow, ignore, msg.
    split; [exact Hin | split; [apply Ha | apply Hi]; discriminate].
Defined.

Lemma str_in_In s set : str_in s set = true <-> In s set.
Proof.
  unfold str_in. rewrite existsb_exists. split.
  - intros (x & Hx & E). apply String.eqb_eq in E. now subst.
  - intros H. exists s. split; [exact H | apply String.eqb_refl].
Qed.

(** [main] looks at [--private] through [parse_bool] only. *)
Lemma sync_main_private_through_parse_bool fuel args v1 v2 :
  hf_sync_loop.parse_bool v1 = hf_sync_loop.parse_bool v2 ->
  hf_sync_loop.main fuel (with_private v1 args) = hf_sync_loop.main fuel (with_private v2 args).
Proof.
  intros H. unfold hf_sync_loop.main, hf_sync_loop.loop_body, with_private.
  cbn [hf_sync_loop.repo_id hf_sync_loop.rtype hf_sync_loop.private hf_sync_loop.local_dir
       hf_sync_loop.interval_seconds hf_sync_loop.once hf_sync_loop.allow_pattern
       hf_sync_loop.ignore_pattern hf_sync_loop.token].
  rewrite H. reflexivity.
Qed.

(** C8.  [parse_bool(v)] is [True] exactly when [v.lower()] is one of ["1"],
    ["true"], ["yes"], ["y"].  So a [--private] value outside these words,
    such as ["on"], ["private"] or a misspelt ["ture"], counts as [False]
    without any complaint: the run is the run of [--private false], and
    every [create_repo] call of it asks for a repository that is not
    private. *)
Theorem parse_bool_accepts_four_words :
  (forall v, hf_sync_loop.parse_bool v = true
             <-> In (lower v) ["1"; "true"; "yes"; "y"]%string)
  /\ hf_sync_loop.parse_bool "on" = false
  /\ hf_sync_loop.parse_bool "private" = false
  /\ hf_sync_loop.parse_bool "ture" = false
  /\ (forall v fuel args env h,
         hf_sync_loop.parse_bool v = false ->
         hf_sync_loop.main fuel (with_private v args) env h
         = hf_sync_loop.main fuel (with_private "false" args) env h)
  /\ (forall v fuel args env h api r t private exist_ok,
         hf_sync_loop.parse_bool v = false ->
         In (EvCreateRepo api r t private exist_ok)
            (fst (hf_sync_loop.main fuel (with_private v args) env h)) ->
         private = false).
Proof.
  split; [| repeat split].
  - intros v. unfold hf_sync_loop.parse_bool. apply str_in_In.
  - intros v fuel args env h Hv.
    now rewrite (sync_main_private_through_parse_bool fuel args v "false").
  - intros v fuel args env h api r t private exist_ok Hv Hin.
    apply sync_main_create_repo_event in Hin. destruct Hin as (-> & _).
    exact Hv.
Qed.

Example parse_bool_examples :
  map hf_sync_loop.parse_bool ["1"; "true"; "TRUE"; "Yes"; "y"; "Y"]%string
  = [true; true; true; true; true; true]
  /\ map hf_sync_loop.parse_bool ["0"; "false"; "no"; ""; " true"; "t"; "on"; "enabled"]%string
     = [false; false; false; false; false; false; false; false].
Proof. split; reflexivity. Qed.

(** With [--private on] the repository is created with [private=False]. *)
Lemma parse_bool_accepts_four_words_witness :
  In (EvCreateRepo {| api_token := Some "hf_token"%string |}
        "user/nanochat-checkpoints" model false true)
     (fst (hf_sync_loop.main 2 (with_private "on" (Listing.sync_args false 1200))
             Listing.trained []))
  /\ hf_sync_loop.main 2 (with_private "on" (Listing.sync_args false 1200)) Listing.trained []
     = hf_sync_loop.main 2 (with_private "false" (Listing.sync_args false 1200))
         Listing.trained [].
Proof.
  split.
  - vm_compute. auto 10.
  - exact (proj1 (proj2 (proj2 (proj2 (proj2 parse_bool_accepts_four_words))))
             "on"%string 2%nat (Listing.sync_args false 1200) Listing.trained []
             eq_refl).
Defined.

Lemma restore_main_glob_raises env h args e :
  env_makedirs env h (hf_restore.local_dir args) true = None ->
  hf_restore.skip_if_local args = true ->
  env_glob env (h ++ [EvMakedirs (hf_restore.local_dir args) true])
    (local_checkpoints_pattern (hf_restore.local_dir args)) false = inl e ->
  hf_restore.main args env h =
  ([EvMakedirs (hf_restore.local_dir args) true;
    EvGlob (local_checkpoints_pattern (hf_restore.local_dir args)) false],
   Raise e).
Proof.
  intros Hm Hs Hg. unfold hf_restore.main, bind at 1, os_makedirs.
  rewrite Hm, Hs. cbn [of_raised].
  unfold bind at 1, hf_restore.has_local_checkpoints, bind at 1, glob_glob.
  fold (local_checkpoints_pattern (hf_restore.local_dir args)).
  rewrite Hg. reflexivity.
Qed.

(** The ways a run of the restore script can go: [makedirs] raises; the
    check for local checkpoints raises; the restore is skipped; or the
    download is started, and then it returns, or raises an error that is
    caught, or raises one that is not. *)
Lemma restore_main_cases args env h :
  let dir := hf_restore.local_dir args in
  let run := hf_restore.main args env h in
  (exists e, env_makedirs env h dir true = Some e /\ run = ([EvMakedirs dir true], Raise e))
  \/ (exists e,
         run = ([EvMakedirs dir true; EvGlob (local_checkpoints_pattern dir) false], Raise e))
  \/ run =
     ([EvMakedirs dir true; EvGlob (local_checkpoints_pattern dir) false;
       EvPrint stdout "[hf-restore] local base checkpoints already exist, skipping restore"],
      Ret 0)
  \/ (exists pre allow file text,
         run = (EvMakedirs dir true ::
                pre ++ [restore_start args; restore_download args allow; EvPrint file text],
                Ret 0))
  \/ (exists pre allow e,
         isinstance_Exception e = false
         /\ run = (EvMakedirs dir true ::
                   pre ++ [restore_start args; restore_download args allow], Raise e)).
Proof.
  intros dir run. subst run.
  destruct (env_makedirs env h dir true) as [e |] eqn:Hm.
  { left. exists e. split; [reflexivity |]. now apply restore_main_makedirs_raises. }
  right.
  assert (Hdl :
    hf_restore.skip_if_local args = false
    \/ env_glob env (h ++ [EvMakedirs dir true]) (local_checkpoints_pattern dir) false
       = inr [] ->
    (exists pre allow file text,
        hf_restore.main args env h =
        (EvMakedirs dir true ::
         pre ++ [restore_start args; restore_download args allow; EvPrint file text],
         Ret 0))
    \/ (exists pre allow e,
           isinstance_Exception e = false
           /\ hf_restore.main args env h =
              (EvMakedirs dir true ::
               pre ++ [restore_start args; restore_download args allow], Raise e))).
  { intros Hskip. rewrite (restore_main_downloads env h args Hm Hskip). fold dir.
    destruct (env_snapshot_download env _ _ _ _ dir false _ true) as [e |].
    - destruct (isinstance_Exception e) eqn:He.
      + left. do 4 eexists. reflexivity.
      + right. do 3 eexists. split; [exact He | reflexivity].
    - left. do 4 eexists. reflexivity. }
  destruct (hf_restore.skip_if_local args) eqn:Hs; [| right; right; auto].
  destruct (env_glob env (h ++ [EvMakedirs dir true]) (local_checkpoints_pattern dir) false)
    as [e | [| p ps]] eqn:Hg.
  - left. exists e. now apply restore_main_glob_raises.
  - right. right. auto.
  - right. left. apply (restore_main_skips env h args (p :: ps)); auto. discriminate.
Qed.

(** C10.  When [--local-dir] does not name an existing directory, the sync
    script writes an error to stderr and ends with exit code 2; it has then
    neither built the API client nor made any remote call.  The restore
    script has no such check: its first call is
    [makedirs(local_dir, exist_ok=True)], after whose return it goes on, and
    it never ends with exit code 2. *)
Theorem sync_requires_existing_directory :
  (forall fuel args env h,
      env_isdir env h (hf_sync_loop.local_dir args) = false ->
      script (hf_sync_loop.main fuel args env h) =
      ([EvIsdir (hf_sync_loop.local_dir args);
        EvPrint stderr ("[hf-sync] local directory does not exist: "
                        ++ hf_sync_loop.local_dir args)%string],
       Exited 2)
      /\ calls is_remote (fst (hf_sync_loop.main fuel args env h)) = false)
  /\ (forall args env h,
         exists rest,
           fst (hf_restore.main args env h)
           = EvMakedirs (hf_restore.local_dir args) true :: rest
           /\ (env_makedirs env h (hf_restore.local_dir args) true = None -> rest <> [])
           /\ snd (script (hf_restore.main args env h)) <> Exited 2).
Proof.
  split.
  - intros fuel args env h Hd.
    rewrite (sync_main_not_a_directory env h fuel args Hd). split; reflexivity.
  - intros args env h.
    destruct (restore_main_cases args env h)
      as [(e & Hm & ->) | [(e & ->) | [-> | [(pre & allow & file & text & ->)
                                            | (pre & allow & e & _ & ->)]]]];
      eexists; (split; [reflexivity |]); cbn [script fst snd]; split;
      try discriminate; try congruence;
      intros _; destruct pre; discriminate.
Qed.

(** The sync script started on a directory that does not exist. *)
Lemma sync_requires_existing_directory_witness :
  script (hf_sync_loop.main 3 (Listing.sync_args false 1200) Listing.missing []) =
  ([EvIsdir "/data/nanochat";
    EvPrint stderr "[hf-sync] local directory does not exist: /data/nanochat"],
   Exited 2).
Proof.
  exact (proj1 (proj1 sync_requires_existing_directory 3%nat
                  (Listing.sync_args false 1200) Listing.missing [] eq_refl)).
Defined.

(** ** Paths *)

Lemma string_app_assoc (a b c : string) : ((a ++ b) ++ c = a ++ (b ++ c))%string.
Proof. induction a as [| x a IH]; simpl; [reflexivity | now rewrite IH]. Qed.

Lemma string_app_nonempty (a b : string) : b <> ""%string -> (a ++ b)%string <> ""%string.
Proof. destruct a; simpl; [auto | discriminate]. Qed.

Lemma endswith_sep_app (a b : string) :
  b <> ""%string -> endswith_sep (a ++ b) = endswith_sep b.
Proof.
  intros Hb. induction a as [| x a IH]; simpl; [reflexivity |].
  destruct (a ++ b)%string eqn:E.
  - exfalso. now apply (string_app_nonempty a b).
  - exact IH.
Qed.

(** Joining a relative component to a directory name that is not empty and
    has no trailing separator. *)
Lemma os_path_join_relative (dir b : string) (rest : list string) :
  dir <> ""%string -> endswith_sep dir = false -> startswith_sep b = false ->
  os_path_join dir (b :: rest) = os_path_join (dir ++ "/" ++ b) rest.
Proof.
  intros Hd He Hb. cbn [os_path_join]. rewrite Hb, He.
  apply String.eqb_neq in Hd. now rewrite Hd.
Qed.

Lemma local_checkpoints_pattern_plain (dir : string) :
  dir <> ""%string -> endswith_sep dir = false ->
  local_checkpoints_pattern dir = (dir ++ "/base_checkpoints/*/model_*.pt")%string.
Proof.
  intros Hd He. unfold local_checkpoints_pattern.
  rewrite os_path_join_relative by auto.
  rewrite os_path_join_relative;
    [| apply string_app_nonempty; discriminate
     | rewrite endswith_sep_app by discriminate; reflexivity
     | reflexivity ].
  rewrite os_path_join_relative;
    [| apply string_app_nonempty; discriminate
     | rewrite endswith_sep_app by discriminate; reflexivity
     | reflexivity ].
  cbn [os_path_join]. now rewrite !string_app_assoc.
Qed.

Example os_path_join_examples :
  os_path_join "/data/nanochat" ["base_checkpoints/**"] = "/data/nanochat/base_checkpoints/**"%string
  /\ os_path_join "/data/nanochat/" ["report.md"] = "/data/nanochat/report.md"%string
  /\ os_path_join "" ["report.md"] = "report.md"%string
  /\ os_path_join "/data/nanochat" ["/srv/other/*"] = "/srv/other/*"%string
  /\ local_checkpoints_pattern "ckpt" = "ckpt/base_checkpoints/*/model_*.pt"%string.
Proof. repeat split. Qed.

(** C5.  With [--skip-if-local], the restore script skips its work when local
    checkpoint files exist: it returns 0 and [snapshot_download] is not
    called.  Whether they exist is decided by one [glob] call alone, for the
    pattern [base_checkpoints/*/model_*.pt] under the local directory: when
    that call finds nothing the download is started, whatever else the
    directory holds, and no other pattern is ever looked up. *)
Theorem skip_if_local_looks_for_base_model_files args env h found :
  let dir := hf_restore.local_dir args in
  hf_restore.skip_if_local args = true ->
  env_makedirs env h dir true = None ->
  env_glob env (h ++ [EvMakedirs dir true]) (local_checkpoints_pattern dir) false
  = inr found ->
  (found <> [] ->
   script (hf_restore.main args env h) =
   ([EvMakedirs dir true; EvGlob (local_checkpoints_pattern dir) false;
     EvPrint stdout "[hf-restore] local base checkpoints already exist, skipping restore"],
    Exited 0)
   /\ calls is_snapshot_download (fst (hf_restore.main args env h)) = false)
  /\ (found = [] -> calls is_snapshot_download (fst (hf_restore.main args env h)) = true)
  /\ (forall pattern recursive,
         In (EvGlob pattern recursive) (fst (hf_restore.main args env h)) ->
         pattern = local_checkpoints_pattern dir /\ recursive = false)
  /\ (dir <> ""%string -> endswith_sep dir = false ->
      local_checkpoints_pattern dir = (dir ++ "/base_checkpoints/*/model_*.pt")%string).
Proof.
  intros dir Hs Hm Hg. split; [| split; [| split]].
  - intros Hf. rewrite (restore_main_skips env h args found Hm Hs Hg Hf).
    split; reflexivity.
  - intros ->. rewrite (restore_main_downloads env h args Hm (or_intror Hg)).
    fold dir. rewrite Hs.
    destruct (env_snapshot_download env _ _ _ _ dir false _ true) as [e |];
      [destruct (isinstance_Exception e) |]; reflexivity.
  - intros pattern recursive. apply restore_main_glob_event.
  - apply local_checkpoints_pattern_plain.
Qed.

(** A directory with a trained base model is left alone. *)
Lemma skip_if_local_looks_for_base_model_files_witness :
  script (hf_restore.main Listing.restore_args Listing.trained []) =
  ([EvMakedirs "/data/nanochat" true;
    EvGlob "/data/nanochat/base_checkpoints/*/model_*.pt" false;
    EvPrint stdout "[hf-restore] local base checkpoints already exist, skipping restore"],
   Exited 0).
Proof.
  refine (proj1 (proj1 (skip_if_local_looks_for_base_model_files
                          Listing.restore_args Listing.trained []
                          ["/data/nanochat/base_checkpoints/d20/model_000650.pt"%string]
                          eq_refl eq_refl eq_refl) _)).
  discriminate.
Defined.

(** A tokenizer and a report alone do not count as local checkpoints: the
    download is started. *)
Example tokenizer_does_not_skip_restore :
  hf_restore.main Listing.restore_args Listing.tokenizer_only [] =
  ([EvMakedirs "/data/nanochat" true;
    EvGlob "/data/nanochat/base_checkpoints/*/model_*.pt" false;
    EvPrint stdout
      "[hf-restore] restoring from model:user/nanochat-checkpoints -> /data/nanochat";
    Listing.the_download;
    EvPrint stdout "[hf-restore] restore complete"],
   Ret 0).
Proof. reflexivity. Qed.

(** ** The loop as a whole *)

Lemma iteration_counts api args seconds blocks :
  Forall (iteration api args seconds) blocks ->
  count is_create_repo (concat blocks) = List.length blocks
  /\ count is_sleep (concat blocks) = List.length blocks.
Proof.
  induction 1 as [| block blocks (mid & -> & Hc & Hs) _ (IHc & IHs)].
  - split; reflexivity.
  - cbn [concat List.length]. rewrite !count_app, IHc, IHs.
    change (EvCreateRepo api (hf_sync_loop.repo_id args) (hf_sync_loop.rtype args)
              (hf_sync_loop.parse_bool (hf_sync_loop.private args)) true
            :: mid ++ [EvSleep seconds])
      with ([EvCreateRepo api (hf_sync_loop.repo_id args) (hf_sync_loop.rtype args)
               (hf_sync_loop.parse_bool (hf_sync_loop.private args)) true]
            ++ mid ++ [EvSleep seconds]).
    rewrite !count_app, !(count_none _ mid) by assumption.
    split; reflexivity.
Qed.

(** In loop mode, as long as sync attempts fail only with errors deriving
    from [Exception] and the sleep returns, a run is the directory check, the
    client, and then one iteration after the other. *)
Lemma sync_main_loop_blocks fuel args env h :
  hf_sync_loop.once args = false ->
  env_isdir env h (hf_sync_loop.local_dir args) = true ->
  attempts_raise_Exception env ->
  sleep_returns env ->
  exists blocks,
    hf_sync_loop.main fuel args env h =
    (EvIsdir (hf_sync_loop.local_dir args) :: EvHfApi (hf_sync_loop.token args)
     :: concat blocks, Running)
    /\ List.length blocks = fuel
    /\ Forall (iteration {| api_token := hf_sync_loop.token args |} args
                 (Z.max 30 (hf_sync_loop.interval_seconds args))) blocks.
Proof.
  intros Honce Hd Henv Hsleep. rewrite (sync_main_run env h fuel args Hd). rewrite Honce.
  match goal with
  | |- context [@while_true Z fuel (hf_sync_loop.loop_body ?api args _ ?al ?ig) env ?h0] =>
      destruct (loop_blocks env api args al ig Henv Hsleep fuel h0) as (blocks & E & Hl & Hf)
  end.
  exists blocks. rewrite E. cbn [fst snd]. rewrite app_nil_r. auto.
Qed.

Lemma quiet_attempts dirs files : attempts_raise_Exception (Listing.quiet dirs files).
Proof. repeat split; intros; discriminate. Qed.

Lemma quiet_sleep_returns dirs files : sleep_returns (Listing.quiet dirs files).
Proof. intros h seconds. reflexivity. Qed.

(** C4.  In loop mode the sleep between two consecutive sync iterations lasts
    [max(30, interval_seconds)] seconds: every sleep of a run has this
    length, which is at least 30 for every [--interval-seconds], zero and
    negative values included, and is the configured value exactly when that
    value is at least 30; and every iteration ends with such a sleep before
    the next one begins. *)
Theorem sleep_is_max_30_interval fuel args env h :
  let seconds := Z.max 30 (hf_sync_loop.interval_seconds args) in
  (forall s, In (EvSleep s) (fst (hf_sync_loop.main fuel args env h)) -> s = seconds)
  /\ 30 <= seconds
  /\ (seconds = hf_sync_loop.interval_seconds args
      <-> 30 <= hf_sync_loop.interval_seconds args)
  /\ (hf_sync_loop.once args = false ->
      env_isdir env h (hf_sync_loop.local_dir args) = true ->
      attempts_raise_Exception env ->
      sleep_returns env ->
      exists blocks,
        hf_sync_loop.main fuel args env h =
        (EvIsdir (hf_sync_loop.local_dir args) :: EvHfApi (hf_sync_loop.token args)
         :: concat blocks, Running)
        /\ List.length blocks = fuel
        /\ Forall (iteration {| api_token := hf_sync_loop.token args |} args seconds) blocks).
Proof.
  intros seconds. split; [| split; [| split]].
  - intros s. apply sync_main_sleep_event.
  - subst seconds. lia.
  - subst seconds. lia.
  - apply sync_main_loop_blocks.
Qed.

(** With [--interval-seconds 5] the loop sleeps 30 seconds after each of its
    iterations. *)
Lemma sleep_is_max_30_interval_witness :
  exists blocks,
    hf_sync_loop.main 2 (Listing.sync_args false 5) Listing.trained [] =
    (EvIsdir "/data/nanochat" :: EvHfApi (Some "hf_token"%string) :: concat blocks, Running)
    /\ List.length blocks = 2%nat
    /\ Forall (iteration {| api_token := Some "hf_token"%string |}
                 (Listing.sync_args false 5) 30) blocks.
Proof.
  exact (proj2 (proj2 (proj2 (sleep_is_max_30_interval 2 (Listing.sync_args false 5)
                                Listing.trained [])))
           eq_refl eq_refl (quiet_attempts _ _) (quiet_sleep_returns _ _)).
Defined.

(** The same run, event by event. *)
Example two_iterations_interval_5 :
  map (fun ev => match ev with EvSleep s => Some s | _ => None end)
      (filter is_sleep
         (fst (hf_sync_loop.main 2 (Listing.sync_args false 5) Listing.trained [])))
  = [Some 30; Some 30]
  /\ map (fun ev => match ev with EvSleep s => Some s | _ => None end)
         (filter is_sleep
            (fst (hf_sync_loop.main 2 (Listing.sync_args false (-7)) Listing.trained [])))
     = [Some 30; Some 30]
  /\ map (fun ev => match ev with EvSleep s => Some s | _ => None end)
         (filter is_sleep
            (fst (hf_sync_loop.main 2 (Listing.sync_args false 1200) Listing.trained [])))
     = [Some 1200; Some 1200].
Proof. repeat split. Qed.

(** When no pattern matches, a sync attempt is the [create_repo] call, the
    lookups, and the line saying that the upload is skipped. *)
Lemma after_create_repo_no_match env h api repo_id rt local_dir allow ignore :
  snd (hf_sync_loop.any_matches local_dir allow env h) = Ret false ->
  after_create_repo api repo_id rt local_dir allow ignore env h =
  (fst (hf_sync_loop.any_matches local_dir allow env h)
   ++ [EvPrint stdout "[hf-sync] no matching files yet, skipping upload"],
   Ret tt).
Proof.
  intros Hm. unfold after_create_repo, bind.
  destruct (hf_sync_loop.any_matches local_dir allow env h) as [t r].
  cbn [snd] in Hm. subst r. reflexivity.
Qed.

(** C9.  Every sync attempt calls
    [create_repo(repo_id, repo_type, private, exist_ok=True)] before anything
    else, so before it looks for matching local files, and it calls it once.
    The call is made also in an attempt where no allow pattern matches and
    the upload is skipped; in loop mode the hub is therefore contacted in
    every iteration. *)
Theorem sync_attempt_creates_repo_first :
  (forall env h api repo_id rt private local_dir allow ignore,
      let create := EvCreateRepo api repo_id rt private true in
      exists rest,
        fst (hf_sync_loop.sync_once api repo_id rt private local_dir allow ignore env h)
        = create :: rest
        /\ calls is_create_repo rest = false
        /\ (env_create_repo env h api repo_id rt private true = None ->
            snd (hf_sync_loop.any_matches local_dir allow env (h ++ [create])) = Ret false ->
            calls is_upload_folder rest = false
            /\ exists lookups,
                rest = lookups
                       ++ [EvPrint stdout "[hf-sync] no matching files yet, skipping upload"]
                /\ Forall (fun ev => is_glob ev = true) lookups))
  /\ (forall fuel args env h,
         hf_sync_loop.once args = false ->
         env_isdir env h (hf_sync_loop.local_dir args) = true ->
         attempts_raise_Exception env ->
         sleep_returns env ->
         count is_create_repo (fst (hf_sync_loop.main fuel args env h)) = fuel
         /\ count is_sleep (fst (hf_sync_loop.main fuel args env h)) = fuel).
Proof.
  split.
  - intros env h api repo_id rt private local_dir allow ignore create.
    destruct (sync_once_opens env h api repo_id rt private local_dir allow ignore)
      as (rest & Ht & Hc & _).
    exists rest. split; [exact Ht |]. split; [exact Hc |].
    intros Hcreate Hmatch. rewrite sync_once_trace, Hcreate in Ht.
    injection Ht as Ht. fold create in Ht.
    rewrite (after_create_repo_no_match _ _ _ _ _ _ _ _ Hmatch) in Ht.
    cbn [fst] in Ht. subst rest. split.
    + rewrite calls_app, any_matches_only_globs by reflexivity. reflexivity.
    + eexists. split; [reflexivity |].
      apply (emits_any_matches (fun ev => is_glob ev = true)). reflexivity.
  - intros fuel args env h Honce Hd Henv Hsleep.
    destruct (sync_main_loop_blocks fuel args env h Honce Hd Henv Hsleep)
      as (blocks & -> & Hl & Hf).
    apply iteration_counts in Hf. destruct Hf as (Hc & Hs).
    cbn [fst].
    change (EvIsdir (hf_sync_loop.local_dir args) :: EvHfApi (hf_sync_loop.token args)
            :: concat blocks)
      with ([EvIsdir (hf_sync_loop.local_dir args); EvHfApi (hf_sync_loop.token args)]
            ++ concat blocks).
    rewrite !count_app, Hc, Hs. subst fuel. split; reflexivity.
Qed.

(** Two iterations over an empty data directory: nothing is uploaded, and
    [create_repo] is called twice. *)
Lemma sync_attempt_creates_repo_first_witness :
  count is_create_repo
    (fst (hf_sync_loop.main 2 (Listing.sync_args false 1200) Listing.fresh [])) = 2%nat
  /\ count is_sleep
       (fst (hf_sync_loop.main 2 (Listing.sync_args false 1200) Listing.fresh [])) = 2%nat.
Proof.
  exact (proj2 sync_attempt_creates_repo_first 2%nat (Listing.sync_args false 1200)
           Listing.fresh [] eq_refl eq_refl (quiet_attempts _ _) (quiet_sleep_returns _ _)).
Defined.

Example empty_directory_still_creates_repo :
  hf_sync_loop.sync_once {| api_token := None |} "user/repo" model true "/data/nanochat"
    hf_sync_loop.DEFAULT_ALLOW_PATTERNS hf_sync_loop.DEFAULT_IGNORE_PATTERNS
    Listing.fresh [] =
  ([EvCreateRepo {| api_token := None |} "user/repo" model true true;
    EvGlob "/data/nanochat/base_checkpoints/**" true;
    EvGlob "/data/nanochat/chatsft_checkpoints/**" true;
    EvGlob "/data/nanochat/chatrl_checkpoints/**" true;
    EvGlob "/data/nanochat/tokenizer/**" true;
    EvGlob "/data/nanochat/report/**" true;
    EvGlob "/data/nanochat/report.md" true;
    EvGlob "/data/nanochat/identity_conversations.jsonl" true;
    EvPrint stdout "[hf-sync] no matching files yet, skipping upload"],
   Ret tt).
Proof. reflexivity. Qed.

(** ** Errors *)

(** C1, as stated, fails: matching files are not enough for an upload.  The
    data directory holds checkpoints, so [any_matches] would return [True],
    but the hub refuses [create_repo]; the attempt ends there and uploads
    nothing. *)
Lemma upload_needs_create_repo_counterexample :
  (exists pattern,
      In pattern hf_sync_loop.DEFAULT_ALLOW_PATTERNS
      /\ Listing.glob (Listing.trained_dirs ++ Listing.trained_files)
           (os_path_join "/data/nanochat" [pattern]) true <> [])
  /\ hf_sync_loop.any_matches "/data/nanochat" hf_sync_loop.DEFAULT_ALLOW_PATTERNS
       (Listing.hub_down Listing.trained) []
     = ([EvGlob "/data/nanochat/base_checkpoints/**" true], Ret true)
  /\ hf_sync_loop.sync_once {| api_token := None |} "user/repo" model true "/data/nanochat"
       hf_sync_loop.DEFAULT_ALLOW_PATTERNS hf_sync_loop.DEFAULT_IGNORE_PATTERNS
       (Listing.hub_down Listing.trained) []
     = ([EvCreateRepo {| api_token := None |} "user/repo" model true true],
        Raise (HfHubHTTPError "401 Unauthorized"))
  /\ calls is_upload_folder
       (fst (hf_sync_loop.sync_once {| api_token := None |} "user/repo" model true
               "/data/nanochat" hf_sync_loop.DEFAULT_ALLOW_PATTERNS
               hf_sync_loop.DEFAULT_IGNORE_PATTERNS (Listing.hub_down Listing.trained) []))
     = false.
Proof.
  split; [| repeat split].
  exists "base_checkpoints/**"%string. split; [now left | vm_compute; discriminate].
Qed.

(** C1, amended.  A sync attempt calls [upload_folder] if and only if its
    [create_repo] call returned and [any_matches] then returned [True]; on a
    file system that does not fail or change during the attempt,
    [any_matches] returns [True] exactly when some allow pattern, joined to
    the local directory, has a recursive glob match.  So an attempt whose
    patterns match nothing, or whose [create_repo] raised, uploads nothing.
    The one upload is of the local directory, with the allow and ignore
    lists of the attempt. *)
Theorem upload_iff_repo_created_and_match
    env h api repo_id rt private local_dir allow ignore :
  let create := EvCreateRepo api repo_id rt private true in
  let attempt :=
    hf_sync_loop.sync_once api repo_id rt private local_dir allow ignore env h in
  (calls is_upload_folder (fst attempt) = true
   <-> env_create_repo env h api repo_id rt private true = None
       /\ snd (hf_sync_loop.any_matches local_dir allow env (h ++ [create])) = Ret true)
  /\ (forall fs,
         glob_snapshot env fs ->
         snd (hf_sync_loop.any_matches local_dir allow env (h ++ [create])) = Ret true
         <-> exists pattern,
               In pattern allow /\ fs (os_path_join local_dir [pattern]) true <> [])
  /\ (forall ev,
         In ev (fst attempt) -> is_upload_folder ev = true ->
         exists msg, ev = EvUploadFolder api repo_id rt local_dir allow ignore msg).
Proof.
  intros create attempt. split; [| split].
  - subst attempt. rewrite sync_once_trace. fold create.
    change (calls is_upload_folder (create :: ?t)) with (calls is_upload_folder t).
    destruct (env_create_repo env h api repo_id rt private true) as [e |].
    + split; [discriminate | intros (Hc & _); discriminate].
    + rewrite after_create_repo_uploads. split; [auto | now intros (_ & H)].
  - intros fs Hfs. rewrite (any_matches_snapshot env fs _ _ _ Hfs). split.
    + intros H. injection H as H. apply existsb_exists in H.
      destruct H as (pattern & Hin & Ht). exists pattern. split; [exact Hin |].
      now apply truthy_nonempty.
    + intros (pattern & Hin & Hne). f_equal. apply existsb_exists.
      exists pattern. split; [exact Hin | now apply truthy_nonempty].
  - intros ev Hin.
    pose proof (emits_sync_once
      (fun ev => is_upload_folder ev = true ->
                 exists msg, ev = EvUploadFolder api repo_id rt local_dir allow ignore msg)
      api repo_id rt private local_dir allow ignore) as H.
    assert (He : emits (fun ev => is_upload_folder ev = true ->
                   exists msg, ev = EvUploadFolder api repo_id rt local_dir allow ignore msg)
                   (hf_sync_loop.sync_once api repo_id rt private local_dir allow ignore)).
    { apply H; try discriminate; intros; try discriminate. eauto. }
    specialize (He env h). rewrite Forall_forall in He. exact (He ev Hin).
Qed.

(** A reachable hub and a data directory with checkpoints: the attempt
    uploads. *)
Lemma upload_iff_repo_created_and_match_witness :
  calls is_upload_folder
    (fst (hf_sync_loop.sync_once {| api_token := None |} "user/repo" model true
            "/data/nanochat" hf_sync_loop.DEFAULT_ALLOW_PATTERNS
            hf_sync_loop.DEFAULT_IGNORE_PATTERNS Listing.trained [])) = true
  /\ exists pattern,
       In pattern hf_sync_loop.DEFAULT_ALLOW_PATTERNS
       /\ Listing.glob (Listing.trained_dirs ++ Listing.trained_files)
            (os_path_join "/data/nanochat" [pattern]) true <> [].
Proof.
  pose proof (upload_iff_repo_created_and_match Listing.trained []
                {| api_token := None |} "user/repo"%string model true
                "/data/nanochat"%string hf_sync_loop.DEFAULT_ALLOW_PATTERNS
                hf_sync_loop.DEFAULT_IGNORE_PATTERNS) as (Hup & Hfs & _).
  split.
  - apply Hup. split; reflexivity.
  - apply (Hfs (Listing.glob (Listing.trained_dirs ++ Listing.trained_files))).
    + intros h pattern recursive. reflexivity.
    + reflexivity.
Defined.

(** No error deriving from [Exception] leaves the loop, unless [time.sleep]
    raises one. *)
Lemma while_true_raises env api args private allow ignore :
  (forall h s e, env_sleep env h s = Some e -> isinstance_Exception e = false) ->
  forall n h e,
    snd (@while_true Z n (hf_sync_loop.loop_body api args private allow ignore) env h)
    = Raise e ->
    isinstance_Exception e = false.
Proof.
  intros Hsleep. induction n as [| n IH]; intros h e.
  - discriminate.
  - rewrite while_true_S, bind_outcome, loop_body_run. cbv zeta.
    destruct (snd (hf_sync_loop.sync_once _ _ _ _ _ _ _ env h)) as [[] | e0 |].
    + cbn [fst snd].
      destruct (env_sleep env _ _) as [e1 |] eqn:Es; cbn [of_raised].
      * intros H. injection H as <-. eapply Hsleep; eassumption.
      * apply IH.
    + destruct (isinstance_Exception e0) eqn:E0; cbn [fst snd].
      * destruct (env_sleep env _ _) as [e1 |] eqn:Es; cbn [of_raised].
        -- intros H. injection H as <-. eapply Hsleep; eassumption.
        -- apply IH.
      * intros H. injection H as <-. exact E0.
    + discriminate.
Qed.

(** C2, as stated, fails for [--once]: the one sync attempt is not inside the
    [try] that logs errors.  When the hub refuses [create_repo], the error
    leaves [main], nothing is logged, and the process ends with a
    traceback. *)
Lemma once_mode_error_counterexample :
  script (hf_sync_loop.main 0 (Listing.sync_args true 1200)
            (Listing.hub_down Listing.trained) []) =
  ([EvIsdir "/data/nanochat"; EvHfApi (Some "hf_token"%string);
    EvCreateRepo {| api_token := Some "hf_token"%string |} "user/nanochat-checkpoints"
      model true true],
   Traceback (HfHubHTTPError "401 Unauthorized")).
Proof. reflexivity. Qed.

(** C2, amended.  In loop mode an error deriving from [Exception] that a
    sync attempt raises (from the repository creation, the match check or
    the upload) is caught and logged to stderr, the loop goes on to its
    sleep, and when the sleep returns the next iteration starts; no such
    error ends [main], as long as [time.sleep] itself raises none.  With
    [--once] the error is not caught: it leaves [main], which ends with a
    traceback. *)
Theorem loop_tolerates_errors_once_does_not :
  (forall env h api args private allow ignore e n,
      let attempt :=
        hf_sync_loop.sync_once api (hf_sync_loop.repo_id args) (hf_sync_loop.rtype args)
          private (hf_sync_loop.local_dir args) allow ignore env h in
      let seconds := Z.max 30 (hf_sync_loop.interval_seconds args) in
      let logged := fst attempt ++ [EvPrint stderr (loop_log e)] in
      let body := hf_sync_loop.loop_body api args private allow ignore in
      let next := @while_true Z n body env (h ++ logged ++ [EvSleep seconds]) in
      snd attempt = Raise e ->
      isinstance_Exception e = true ->
      body env h = (logged ++ [EvSleep seconds],
                    of_raised (env_sleep env (h ++ logged) seconds))
      /\ (env_sleep env (h ++ logged) seconds = None ->
          @while_true Z (S n) body env h = ((logged ++ [EvSleep seconds]) ++ fst next, snd next)
          /\ (n <> 0%nat ->
              exists rest,
                fst next = EvCreateRepo api (hf_sync_loop.repo_id args)
                             (hf_sync_loop.rtype args) private true :: rest)))
  /\ (forall fuel args env h e,
         hf_sync_loop.once args = false ->
         (forall h' s e', env_sleep env h' s = Some e' -> isinstance_Exception e' = false) ->
         snd (hf_sync_loop.main fuel args env h) = Raise e ->
         isinstance_Exception e = false)
  /\ (forall fuel args env h e,
         let attempt :=
           hf_sync_loop.sync_once {| api_token := hf_sync_loop.token args |}
             (hf_sync_loop.repo_id args) (hf_sync_loop.rtype args)
             (hf_sync_loop.parse_bool (hf_sync_loop.private args))
             (hf_sync_loop.local_dir args)
             (if truthy (hf_sync_loop.allow_pattern args)
              then hf_sync_loop.allow_pattern args
              else hf_sync_loop.DEFAULT_ALLOW_PATTERNS)
             (if truthy (hf_sync_loop.ignore_pattern args)
              then hf_sync_loop.ignore_pattern args
              else hf_sync_loop.DEFAULT_IGNORE_PATTERNS)
             env ((h ++ [EvIsdir (hf_sync_loop.local_dir args)])
                  ++ [EvHfApi (hf_sync_loop.token args)]) in
         hf_sync_loop.once args = true ->
         env_isdir env h (hf_sync_loop.local_dir args) = true ->
         snd attempt = Raise e ->
         isinstance_KeyboardInterrupt e = false ->
         script (hf_sync_loop.main fuel args env h) =
         (EvIsdir (hf_sync_loop.local_dir args) :: EvHfApi (hf_sync_loop.token args)
          :: fst attempt, Traceback e)).
Proof.
  split; [| split].
  - intros env h api args private allow ignore e n attempt seconds logged body next
           Hraise He.
    assert (Hbody : body env h = (logged ++ [EvSleep seconds],
                                  of_raised (env_sleep env (h ++ logged) seconds))).
    { subst body. rewrite loop_body_run. cbv zeta. fold attempt.
      rewrite Hraise, He. reflexivity. }
    split; [exact Hbody |]. intros Hs. split.
    + rewrite while_true_S. unfold bind at 1. rewrite Hbody, Hs. cbn [of_raised].
      subst next.
      destruct (while_true n body env (h ++ logged ++ [EvSleep seconds])); reflexivity.
    + intros Hn. destruct n as [| m]; [contradiction |].
      subst next. rewrite while_true_S, bind_trace. subst body.
      rewrite loop_body_run. cbv zeta.
      destruct (sync_once_opens env (h ++ logged ++ [EvSleep seconds]) api
                  (hf_sync_loop.repo_id args) (hf_sync_loop.rtype args) private
                  (hf_sync_loop.local_dir args) allow ignore) as (mid & Ht & _).
      rewrite Ht.
      destruct (snd (hf_sync_loop.sync_once _ _ _ _ _ _ _ env _)) as [[] | e0 |];
        [| destruct (isinstance_Exception e0) |]; cbn [fst app]; eexists; reflexivity.
  - intros fuel args env h e Honce Hsleep.
    destruct (env_isdir env h (hf_sync_loop.local_dir args)) eqn:Hd.
    + rewrite (sync_main_run env h fuel args Hd). rewrite Honce. cbn [snd].
      match goal with
      | |- context [@while_true Z fuel ?b env ?h0] =>
          destruct (snd (@while_true Z fuel b env h0)) as [code | e0 |] eqn:E
      end; try discriminate.
      apply while_true_raises in E; [| exact Hsleep].
      destruct e0; try discriminate; intros H; injection H as <-; exact E.
    + rewrite (sync_main_not_a_directory env h fuel args Hd). discriminate.
  - intros fuel args env h e attempt Honce Hd Hraise Hk.
    rewrite (sync_main_run env h fuel args Hd). rewrite Honce.
    unfold script. rewrite bind_trace, bind_outcome. fold attempt. rewrite Hraise.
    destruct e; try discriminate; cbn [fst snd]; rewrite !app_nil_r; reflexivity.
Qed.

(** The hub refuses the first [create_repo]: the error is logged, the loop
    sleeps, and it would go on. *)
Lemma loop_tolerates_errors_once_does_not_witness :
  hf_sync_loop.loop_body {| api_token := Some "hf_token"%string |}
    (Listing.sync_args false 1200) true
    hf_sync_loop.DEFAULT_ALLOW_PATTERNS hf_sync_loop.DEFAULT_IGNORE_PATTERNS
    (Listing.hub_flaky Listing.tokenizer_only)
    [EvIsdir "/data/nanochat"; EvHfApi (Some "hf_token"%string)] =
  ([EvCreateRepo {| api_token := Some "hf_token"%string |} "user/nanochat-checkpoints"
      model true true;
    EvPrint stderr "[hf-sync] hub error: 503 Service Unavailable";
    EvSleep 1200],
   Ret tt).
Proof.
  exact (proj1 (proj1 loop_tolerates_errors_once_does_not
                  (Listing.hub_flaky Listing.tokenizer_only)
                  [EvIsdir "/data/nanochat"; EvHfApi (Some "hf_token"%string)]
                  {| api_token := Some "hf_token"%string |}
                  (Listing.sync_args false 1200) true
                  hf_sync_loop.DEFAULT_ALLOW_PATTERNS hf_sync_loop.DEFAULT_IGNORE_PATTERNS
                  (HfHubHTTPError "503 Service Unavailable") 1%nat eq_refl eq_refl)).
Defined.

(** The same hub over two iterations: the second one uploads. *)
Example flaky_hub_two_iterations :
  hf_sync_loop.main 2 (Listing.sync_args false 1200)
    (Listing.hub_flaky Listing.tokenizer_only) [] =
  ([EvIsdir "/data/nanochat"; EvHfApi (Some "hf_token"%string);
    EvCreateRepo {| api_token := Some "hf_token"%string |} "user/nanochat-checkpoints"
      model true true;
    EvPrint stderr "[hf-sync] hub error: 503 Service Unavailable";
    EvSleep 1200;
    EvCreateRepo {| api_token := Some "hf_token"%string |} "user/nanochat-checkpoints"
      model true true;
    EvGlob "/data/nanochat/base_checkpoints/**" true;
    EvGlob "/data/nanochat/chatsft_checkpoints/**" true;
    EvGlob "/data/nanochat/chatrl_checkpoints/**" true;
    EvGlob "/data/nanochat/tokenizer/**" true;
    EvNow;
    EvPrint stdout
      "[hf-sync] uploading artifacts from /data/nanochat -> model:user/nanochat-checkpoints";
    Listing.the_upload;
    EvPrint stdout "[hf-sync] upload complete";
    EvSleep 1200],
   Running).
Proof. reflexivity. Qed.

(** Ctrl-C during the second sleep ends the loop with exit code 0. *)
Example interrupted_loop_exits_0 :
  script (hf_sync_loop.main 5 (Listing.sync_args false 1200)
            (Listing.interrupted_at 1 Listing.fresh) []) =
  ([EvIsdir "/data/nanochat"; EvHfApi (Some "hf_token"%string);
    EvCreateRepo {| api_token := Some "hf_token"%string |} "user/nanochat-checkpoints"
      model true true;
    EvGlob "/data/nanochat/base_checkpoints/**" true;
    EvGlob "/data/nanochat/chatsft_checkpoints/**" true;
    EvGlob "/data/nanochat/chatrl_checkpoints/**" true;
    EvGlob "/data/nanochat/tokenizer/**" true;
    EvGlob "/data/nanochat/report/**" true;
    EvGlob "/data/nanochat/report.md" true;
    EvGlob "/data/nanochat/identity_conversations.jsonl" true;
    EvPrint stdout "[hf-sync] no matching files yet, skipping upload";
    EvSleep 1200;
    EvCreateRepo {| api_token := Some "hf_token"%string |} "user/nanochat-checkpoints"
      model true true;
    EvGlob "/data/nanochat/base_checkpoints/**" true;
    EvGlob "/data/nanochat/chatsft_checkpoints/**" true;
    EvGlob "/data/nanochat/chatrl_checkpoints/**" true;
    EvGlob "/data/nanochat/tokenizer/**" true;
    EvGlob "/data/nanochat/report/**" true;
    EvGlob "/data/nanochat/report.md" true;
    EvGlob "/data/nanochat/identity_conversations.jsonl" true;
    EvPrint stdout "[hf-sync] no matching files yet, skipping upload";
    EvSleep 1200;
    EvPrint stdout "[hf-sync] interrupted"],
   Exited 0).
Proof. reflexivity. Qed.

(** C3, as stated, fails: not every run of the restore script that gets past
    argument parsing ends with exit code 0.  When [--local-dir] names a
    regular file, [os.makedirs] raises before the [try], and when Ctrl-C
    arrives during the download, the [KeyboardInterrupt] is not an
    [Exception]; both leave [main] with a traceback. *)
Lemma restore_exit_code_counterexample :
  script (hf_restore.main Listing.restore_args
            (Listing.not_a_directory Listing.missing) []) =
  ([EvMakedirs "/data/nanochat" true],
   Traceback (OtherException "[Errno 17] File exists: '/data/nanochat'"))
  /\ script (hf_restore.main Listing.restore_args
               (Listing.download_interrupted Listing.fresh) []) =
     ([EvMakedirs "/data/nanochat" true;
       EvGlob "/data/nanochat/base_checkpoints/*/model_*.pt" false;
       EvPrint stdout
         "[hf-restore] restoring from model:user/nanochat-checkpoints -> /data/nanochat";
       Listing.the_download],
      Traceback KeyboardInterrupt).
Proof. split; reflexivity. Qed.

(** C3, amended.  For every run of the restore script that gets past
    argument parsing and in which [os.makedirs] and the check for local
    checkpoints return, the exit code is 0 whenever [snapshot_download]
    returns or raises an error deriving from [Exception]: an
    [HfHubHTTPError] (the repository is not there, say) and any other
    [Exception] are both caught and logged to stderr, and [main] still
    returns 0. *)
Theorem restore_returns_0_on_download_errors args env h :
  let dir := hf_restore.local_dir args in
  let allow :=
    if truthy (hf_restore.allow_pattern args) then hf_restore.allow_pattern args
    else hf_restore.DEFAULT_ALLOW_PATTERNS in
  let pre :=
    EvMakedirs dir true ::
    (if hf_restore.skip_if_local args then [EvGlob (local_checkpoints_pattern dir) false]
     else []) in
  let answer :=
    env_snapshot_download env (h ++ pre ++ [restore_start args])
      (hf_restore.repo_id args) (hf_restore.rtype args) (hf_restore.token args) dir
      false allow true in
  env_makedirs env h dir true = None ->
  (hf_restore.skip_if_local args = true ->
   exists found,
     env_glob env (h ++ [EvMakedirs dir true]) (local_checkpoints_pattern dir) false
     = inr found) ->
  (forall e, answer = Some e -> isinstance_Exception e = true) ->
  snd (script (hf_restore.main args env h)) = Exited 0
  /\ (forall e,
         calls is_snapshot_download (fst (hf_restore.main args env h)) = true ->
         answer = Some e ->
         hf_restore.main args env h =
         (pre ++ [restore_start args; restore_download args allow;
                  EvPrint stderr (restore_log e)], Ret 0))
  /\ (forall msg,
         restore_log (HfHubHTTPError msg)
         = ("[hf-restore] hub error (continuing): " ++ msg)%string
         /\ restore_log (OtherException msg)
            = ("[hf-restore] unexpected restore error (continuing): " ++ msg)%string).
Proof.
  intros dir allow pre answer Hm Hglob Hexc.
  assert (Hcases :
    hf_restore.main args env h =
    ([EvMakedirs dir true; EvGlob (local_checkpoints_pattern dir) false;
      EvPrint stdout "[hf-restore] local base checkpoints already exist, skipping restore"],
     Ret 0)
    \/ hf_restore.main args env h =
       match answer with
       | None =>
           (pre ++ [restore_start args; restore_download args allow;
                    EvPrint stdout "[hf-restore] restore complete"], Ret 0)
       | Some e =>
           if isinstance_Exception e then
             (pre ++ [restore_start args; restore_download args allow;
                      EvPrint stderr (restore_log e)], Ret 0)
           else (pre ++ [restore_start args; restore_download args allow], Raise e)
       end).
  { assert (Hs : hf_restore.skip_if_local args = true
                 \/ hf_restore.skip_if_local args = false)
      by (destruct (hf_restore.skip_if_local args); auto).
    destruct Hs as [Hs | Hs].
    - destruct (Hglob Hs) as ([| p ps] & Hg).
      + right. apply (restore_main_downloads env h args Hm). now right.
      + left. apply (restore_main_skips env h args (p :: ps)); auto. discriminate.
    - right. apply (restore_main_downloads env h args Hm). now left. }
  split; [| split].
  - destruct Hcases as [-> | ->]; [reflexivity |].
    destruct answer as [e |] eqn:Ea; [| reflexivity].
    rewrite (Hexc e eq_refl). reflexivity.
  - intros e Hcall Ha. destruct Hcases as [E | E].
    + rewrite E in Hcall. discriminate.
    + rewrite E, Ha. rewrite (Hexc e Ha). reflexivity.
  - intros msg. split; reflexivity.
Qed.

(** The repository does not exist yet on the first launch: the error is
    logged and the script exits with 0. *)
Lemma restore_returns_0_on_download_errors_witness :
  script (hf_restore.main Listing.restore_args (Listing.repo_not_found Listing.fresh) []) =
  ([EvMakedirs "/data/nanochat" true;
    EvGlob "/data/nanochat/base_checkpoints/*/model_*.pt" false;
    EvPrint stdout
      "[hf-restore] restoring from model:user/nanochat-checkpoints -> /data/nanochat";
    Listing.the_download;
    EvPrint stderr
      "[hf-restore] hub error (continuing): 404 Client Error: Repository Not Found"],
   Exited 0).
Proof.
  assert (Hrun :
    hf_restore.main Listing.restore_args (Listing.repo_not_found Listing.fresh) [] =
    ([EvMakedirs "/data/nanochat" true;
      EvGlob "/data/nanochat/base_checkpoints/*/model_*.pt" false;
      EvPrint stdout
        "[hf-restore] restoring from model:user/nanochat-checkpoints -> /data/nanochat";
      Listing.the_download;
      EvPrint stderr
        "[hf-restore] hub error (continuing): 404 Client Error: Repository Not Found"],
     Ret 0)).
  { refine (proj1 (proj2 (restore_returns_0_on_download_errors
                            Listing.restore_args (Listing.repo_not_found Listing.fresh) []
                            eq_refl _ _))
              (HfHubHTTPError "404 Client Error: Repository Not Found") eq_refl eq_refl).
    - intros _. exists []. reflexivity.
    - intros e H. injection H as <-. reflexivity. }
  unfold script. rewrite Hrun. reflexivity.
Defined.

(** * Further properties *)

(** ** The match check *)

Lemma any_matches_none env fs h local_dir allow :
  glob_snapshot env fs ->
  (forall q, In q allow -> fs (os_path_join local_dir [q]) true = []) ->
  hf_sync_loop.any_matches local_dir allow env h = (map (glob_event local_dir) allow, Ret false).
Proof.
  intros Hfs. revert h. induction allow as [| q rest IH]; intros h Hnone.
  - reflexivity.
  - cbn [hf_sync_loop.any_matches map]. unfold bind, glob_glob.
    rewrite Hfs, (Hnone q) by now left. cbn [of_sum truthy].
    rewrite IH by (intros; apply Hnone; now right). reflexivity.
Qed.

(** X1.  [any_matches] looks the patterns up in the order of the list, with
    one recursive [glob] call each, and stops at the first pattern that has a
    match: the patterns after it are not looked up.  When no pattern has a
    match, each one was looked up once and the result is [False]; for an
    empty list this is so without any lookup. *)
Theorem any_matches_stops_at_first_match env fs h local_dir :
  glob_snapshot env fs ->
  (forall pre pattern post,
      (forall q, In q pre -> fs (os_path_join local_dir [q]) true = []) ->
      fs (os_path_join local_dir [pattern]) true <> [] ->
      hf_sync_loop.any_matches local_dir (pre ++ pattern :: post) env h
      = (map (glob_event local_dir) (pre ++ [pattern]), Ret true))
  /\ (forall allow,
         (forall q, In q allow -> fs (os_path_join local_dir [q]) true = []) ->
         hf_sync_loop.any_matches local_dir allow env h
         = (map (glob_event local_dir) allow, Ret false))
  /\ hf_sync_loop.any_matches local_dir [] env h = ([], Ret false).
Proof.
  intros Hfs. split; [| split].
  - intros pre. revert h. induction pre as [| q pre IH]; intros h pattern post Hpre Hp.
    + cbn [app hf_sync_loop.any_matches map]. unfold bind, glob_glob. rewrite Hfs.
      apply truthy_nonempty in Hp. cbn [of_sum]. rewrite Hp. reflexivity.
    + cbn [app hf_sync_loop.any_matches map]. unfold bind at 1, glob_glob.
      rewrite Hfs, (Hpre q) by now left. cbn [of_sum truthy].
      rewrite IH by (auto; intros; apply Hpre; now right). reflexivity.
  - intros allow. now apply any_matches_none.
  - reflexivity.
Qed.

(** A directory with a tokenizer only: three patterns are looked up in vain,
    the fourth matches, the last three are not looked up. *)
Lemma any_matches_stops_at_first_match_witness :
  hf_sync_loop.any_matches "/data/nanochat" hf_sync_loop.DEFAULT_ALLOW_PATTERNS
    Listing.tokenizer_only [] =
  ([EvGlob "/data/nanochat/base_checkpoints/**" true;
    EvGlob "/data/nanochat/chatsft_checkpoints/**" true;
    EvGlob "/data/nanochat/chatrl_checkpoints/**" true;
    EvGlob "/data/nanochat/tokenizer/**" true],
   Ret true).
Proof.
  refine (proj1 (any_matches_stops_at_first_match Listing.tokenizer_only
                   (Listing.glob ["/data/nanochat"; "/data/nanochat/tokenizer";
                                  "/data/nanochat/tokenizer/tokenizer.pkl";
                                  "/data/nanochat/report.md"]%string)
                   [] "/data/nanochat"%string _)
            ["base_checkpoints/**"; "chatsft_checkpoints/**"; "chatrl_checkpoints/**"]%string
            "tokenizer/**"%string
            ["report/**"; "report.md"; "identity_conversations.jsonl"]%string _ _).
  - intros h pattern recursive. reflexivity.
  - intros q [<- | [<- | [<- | []]]]; reflexivity.
  - vm_compute. discriminate.
Defined.

(** X2.  Each lookup of [any_matches] is recursive and is for
    [os.path.join(local_dir, pattern)] with [pattern] from the allow list.
    For a relative pattern and a directory name without trailing separator
    that is [local_dir/pattern]; an absolute pattern replaces the directory,
    so the lookup is then not under [local_dir] at all. *)
Theorem any_matches_looks_up_joined_paths local_dir allow env h path recursive :
  In (EvGlob path recursive) (fst (hf_sync_loop.any_matches local_dir allow env h)) ->
  recursive = true
  /\ exists pattern,
       In pattern allow
       /\ path = os_path_join local_dir [pattern]
       /\ (startswith_sep pattern = true -> path = pattern)
       /\ (startswith_sep pattern = false -> local_dir <> ""%string ->
           endswith_sep local_dir = false ->
           path = (local_dir ++ "/" ++ pattern)%string).
Proof.
  intros Hin.
  pose proof (emits_any_matches
    (fun ev => match ev with
               | EvGlob p r =>
                   r = true /\ exists pattern,
                     In pattern allow /\ p = os_path_join local_dir [pattern]
               | _ => True
               end) local_dir allow) as H.
  assert (He : Forall (fun ev => match ev with
                                 | EvGlob p r =>
                                     r = true /\ exists pattern,
                                       In pattern allow
                                       /\ p = os_path_join local_dir [pattern]
                                 | _ => True
                                 end)
                 (fst (hf_sync_loop.any_matches local_dir allow env h))).
  { apply H. intros pattern Hp. split; [reflexivity |]. exists pattern. auto. }
  rewrite Forall_forall in He. destruct (He _ Hin) as (Hr & pattern & Hp & ->).
  split; [exact Hr |]. exists pattern. split; [exact Hp |]. split; [reflexivity |]. split.
  - intros Ha. cbn [os_path_join]. now rewrite Ha.
  - intros Ha Hd He'. now rewrite os_path_join_relative.
Qed.

(** With [--allow-pattern /srv/other/*] the lookup is for [/srv/other/*]. *)
Lemma any_matches_looks_up_joined_paths_witness :
  exists pattern,
    In pattern ["/srv/other/*"]%string
    /\ "/srv/other/*"%string = os_path_join "/data/nanochat" [pattern]
    /\ (startswith_sep pattern = true -> "/srv/other/*"%string = pattern)
    /\ (startswith_sep pattern = false -> "/data/nanochat"%string <> ""%string ->
        endswith_sep "/data/nanochat" = false ->
        "/srv/other/*"%string = ("/data/nanochat" ++ "/" ++ pattern)%string).
Proof.
  refine (proj2 (any_matches_looks_up_joined_paths "/data/nanochat"%string
                   ["/srv/other/*"]%string Listing.fresh [] "/srv/other/*"%string true _)).
  vm_compute. auto.
Defined.

(** ** A sync attempt, event by event *)







(** ** The sync script as a whole *)

Lemma while_true_never_returns {A : Type} (body : M unit) env n h (a : A) :
  snd (@while_true A n body env h) <> Ret a.
Proof.
  revert h. induction n as [| n IH]; intros h.
  - discriminate.
  - rewrite while_true_S, bind_outcome.
    destruct (snd (body env h)); [apply IH | discriminate | discriminate].
Qed.

Lemma while_true_calls {A : Type} (kind : event -> bool) (body : M unit) env :
  (forall h, calls kind (fst (body env h)) = false) ->
  forall n h, calls kind (fst (@while_true A n body env h)) = false.
Proof.
  intros Hb. induction n as [| n IH]; intros h.
  - reflexivity.
  - rewrite while_true_S, bind_trace, calls_app, Hb.
    destruct (snd (body env h)); [apply IH | reflexivity | reflexivity].
Qed.

(** [main] in terms of the body of its outer [try]. *)
Lemma sync_main_try env h fuel args :
  env_isdir env h (hf_sync_loop.local_dir args) = true ->
  let body :=
    sync_try_body fuel args env
      ((h ++ [EvIsdir (hf_sync_loop.local_dir args)])
       ++ [EvHfApi (hf_sync_loop.token args)]) in
  hf_sync_loop.main fuel args env h =
  (EvIsdir (hf_sync_loop.local_dir args) :: EvHfApi (hf_sync_loop.token args) ::
   fst body ++
   match snd body with
   | Raise KeyboardInterrupt => [interrupted]
   | _ => []
   end,
   match snd body with
   | Raise KeyboardInterrupt => Ret 0
   | r => r
   end).
Proof. intros Hd. exact (sync_main_run env h fuel args Hd). Qed.

(** The events of a sync attempt, print by print. *)
Lemma emits_sync_once_lines P api repo_id rt private local_dir allow ignore :
  P (EvCreateRepo api repo_id rt private true) ->
  (forall pattern, In pattern allow -> P (glob_event local_dir pattern)) ->
  P EvNow ->
  P (EvPrint stdout "[hf-sync] no matching files yet, skipping upload") ->
  P (EvPrint stdout ("[hf-sync] uploading artifacts from " ++ local_dir ++ " -> "
                     ++ repo_type_str rt ++ ":" ++ repo_id)%string) ->
  (forall msg, P (EvUploadFolder api repo_id rt local_dir allow ignore msg)) ->
  P upload_complete ->
  emits P (hf_sync_loop.sync_once api repo_id rt private local_dir allow ignore).
Proof.
  intros Hc Hg Hn Hp1 Hp2 Hu Hp3. unfold hf_sync_loop.sync_once.
  apply emits_bind; [now apply emits_one |]. intros _.
  apply emits_bind; [now apply emits_any_matches |]. intros matched.
  apply emits_if; [now apply emits_one |].
  apply emits_bind; [now apply emits_one |]. intros timestamp.
  apply emits_bind; [now apply emits_one |]. intros _.
  apply emits_bind; [now apply emits_one |]. intros _.
  now apply emits_one.
Qed.

(** The events of the body of the outer [try], call by call. *)
Lemma emits_sync_try_body P fuel args :
  let api := {| api_token := hf_sync_loop.token args |} in
  P (EvCreateRepo api (hf_sync_loop.repo_id args) (hf_sync_loop.rtype args)
       (hf_sync_loop.parse_bool (hf_sync_loop.private args)) true) ->
  (forall pattern, In pattern (sync_allow args) ->
                   P (glob_event (hf_sync_loop.local_dir args) pattern)) ->
  P EvNow ->
  P (EvPrint stdout "[hf-sync] no matching files yet, skipping upload") ->
  P (EvPrint stdout ("[hf-sync] uploading artifacts from " ++ hf_sync_loop.local_dir args
                     ++ " -> " ++ repo_type_str (hf_sync_loop.rtype args) ++ ":"
                     ++ hf_sync_loop.repo_id args)%string) ->
  (forall msg, P (EvUploadFolder api (hf_sync_loop.repo_id args) (hf_sync_loop.rtype args)
                    (hf_sync_loop.local_dir args) (sync_allow args) (sync_ignore args) msg)) ->
  P upload_complete ->
  (forall e, P (EvPrint stderr (loop_log e))) ->
  P (EvSleep (Z.max 30 (hf_sync_loop.interval_seconds args))) ->
  emits P (sync_try_body fuel args).
Proof.
  intros api Hc Hg Hn Hp1 Hp2 Hu Hp3 Hlog Hs. unfold sync_try_body.
  assert (Hsync : emits P (hf_sync_loop.sync_once api (hf_sync_loop.repo_id args)
                             (hf_sync_loop.rtype args)
                             (hf_sync_loop.parse_bool (hf_sync_loop.private args))
                             (hf_sync_loop.local_dir args) (sync_allow args)
                             (sync_ignore args)))
    by now apply emits_sync_once_lines.
  apply emits_if.
  - apply emits_bind; [exact Hsync | intros _; apply emits_ret].
  - apply emits_while_true. unfold hf_sync_loop.loop_body.
    apply emits_bind; [| intros _; now apply emits_one].
    apply emits_try_except; [exact Hsync |].
    intros e handler He. unfold hf_sync_loop.loop_handlers in He.
    pose proof (Hlog e) as Hl. unfold loop_log in Hl.
    destruct (isinstance_HfHubHTTPError e);
      [| destruct (isinstance_Exception e); [| discriminate]];
      injection He as <-; now apply emits_one.
Qed.

(** X4.  The values [main] of the sync script returns.  When it returns, it
    returns 2 if [--local-dir] is not an existing directory and 0 if it is;
    it returns nothing else. *)
Theorem sync_main_returns_0_or_2 fuel args env h code :
  snd (hf_sync_loop.main fuel args env h) = Ret code ->
  (code = 2 /\ env_isdir env h (hf_sync_loop.local_dir args) = false)
  \/ (code = 0 /\ env_isdir env h (hf_sync_loop.local_dir args) = true).
Proof.
  destruct (env_isdir env h (hf_sync_loop.local_dir args)) eqn:Hd.
  - rewrite (sync_main_try env h fuel args Hd). cbv zeta. cbn [snd].
    set (h0 := (h ++ [EvIsdir (hf_sync_loop.local_dir args)])
               ++ [EvHfApi (hf_sync_loop.token args)]).
    intros Hret. right. split; [| reflexivity].
    destruct (snd (sync_try_body fuel args env h0)) as [c | e |] eqn:Eb.
    + injection Hret as <-. unfold sync_try_body in Eb.
      destruct (hf_sync_loop.once args).
      * rewrite bind_outcome in Eb.
        destruct (snd (hf_sync_loop.sync_once _ _ _ _ _ _ _ env h0)) as [[] | e |];
          try discriminate.
        cbn in Eb. now injection Eb as <-.
      * now apply while_true_never_returns in Eb.
    + destruct e; try discriminate. now injection Hret as <-.
    + discriminate.
  - rewrite (sync_main_not_a_directory env h fuel args Hd). cbn [snd].
    intros H. injection H as <-. left. auto.
Qed.

(** Started on a directory that does not exist, the loop returns 2. *)
Lemma sync_main_returns_0_or_2_witness :
  (2 = 2 /\ env_isdir Listing.missing [] "/data/nanochat" = false)
  \/ (2 = 0 /\ env_isdir Listing.missing [] "/data/nanochat" = true).
Proof.
  exact (sync_main_returns_0_or_2 3 (Listing.sync_args false 1200) Listing.missing [] 2
           eq_refl).
Defined.

Lemma sync_try_body_not_interrupted_line fuel args env h :
  ~ In interrupted (fst (sync_try_body fuel args env h)).
Proof.
  intros Hin.
  pose proof (emits_sync_try_body (fun ev => ev <> interrupted) fuel args) as H.
  cbv zeta in H.
  assert (He : emits (fun ev => ev <> interrupted) (sync_try_body fuel args)).
  { apply H; try discriminate; intros; discriminate. }
  specialize (He env h). rewrite Forall_forall in He. exact (He _ Hin eq_refl).
Qed.

(** X5.  Ctrl-C is the one way out of the loop that is not a failure.  The
    line ["[hf-sync] interrupted"] is printed only as the last line of a run
    that returns 0, and a run in loop mode that returns at all has printed
    it: the loop itself never returns. *)
Theorem loop_returns_only_when_interrupted fuel args env h :
  env_isdir env h (hf_sync_loop.local_dir args) = true ->
  (In interrupted (fst (hf_sync_loop.main fuel args env h)) ->
   snd (hf_sync_loop.main fuel args env h) = Ret 0
   /\ exists before, fst (hf_sync_loop.main fuel args env h) = before ++ [interrupted])
  /\ (hf_sync_loop.once args = false ->
      forall code,
        snd (hf_sync_loop.main fuel args env h) = Ret code ->
        In interrupted (fst (hf_sync_loop.main fuel args env h))).
Proof.
  intros Hd. rewrite (sync_main_try env h fuel args Hd). cbv zeta. cbn [fst snd].
  set (h0 := (h ++ [EvIsdir (hf_sync_loop.local_dir args)])
             ++ [EvHfApi (hf_sync_loop.token args)]).
  split.
  - intros Hin.
    assert (Hk : snd (sync_try_body fuel args env h0) = Raise KeyboardInterrupt).
    { destruct Hin as [H | [H | H]]; try discriminate H.
      apply in_app_or in H. destruct H as [H | H].
      - now apply sync_try_body_not_interrupted_line in H.
      - destruct (snd (sync_try_body fuel args env h0)) as [code | [] |];
          try contradiction; reflexivity. }
    rewrite Hk. split; [reflexivity |].
    exists (EvIsdir (hf_sync_loop.local_dir args) :: EvHfApi (hf_sync_loop.token args)
            :: fst (sync_try_body fuel args env h0)). reflexivity.
  - intros Honce code Hret.
    destruct (snd (sync_try_body fuel args env h0)) as [c | e |] eqn:Eb.
    + unfold sync_try_body in Eb. rewrite Honce in Eb.
      now apply while_true_never_returns in Eb.
    + destruct e; try discriminate.
      right. right. apply in_or_app. right. now left.
    + discriminate.
Qed.

(** Ctrl-C during the second sleep. *)
Lemma loop_returns_only_when_interrupted_witness :
  In interrupted
     (fst (hf_sync_loop.main 5 (Listing.sync_args false 1200)
             (Listing.interrupted_at 1 Listing.fresh) [])).
Proof.
  exact (proj2 (loop_returns_only_when_interrupted 5 (Listing.sync_args false 1200)
                  (Listing.interrupted_at 1 Listing.fresh) [] eq_refl)
           eq_refl 0 eq_refl).
Defined.

(** X6.  With [--once] and an existing directory, [main] makes exactly one
    sync attempt and never sleeps, and the run ends: with exit code 0 exactly
    when the attempt returned or was interrupted by Ctrl-C. *)
Theorem once_makes_one_attempt fuel args env h :
  hf_sync_loop.once args = true ->
  env_isdir env h (hf_sync_loop.local_dir args) = true ->
  count is_create_repo (fst (hf_sync_loop.main fuel args env h)) = 1%nat
  /\ calls is_sleep (fst (hf_sync_loop.main fuel args env h)) = false
  /\ snd (hf_sync_loop.main fuel args env h) <> Running
  /\ (snd (hf_sync_loop.main fuel args env h) = Ret 0
      <-> snd (once_attempt args env h) = Ret tt
          \/ snd (once_attempt args env h) = Raise KeyboardInterrupt)
  /\ exists last_line,
       fst (hf_sync_loop.main fuel args env h)
       = EvIsdir (hf_sync_loop.local_dir args) :: EvHfApi (hf_sync_loop.token args)
         :: fst (once_attempt args env h) ++ last_line
       /\ (last_line = [] \/ last_line = [interrupted]).
Proof.
  intros Honce Hd. rewrite (sync_main_try env h fuel args Hd). cbv zeta.
  unfold sync_try_body. rewrite Honce. rewrite bind_trace, bind_outcome.
  fold (once_attempt args env h). cbn [fst snd].
  destruct (sync_once_opens env
              ((h ++ [EvIsdir (hf_sync_loop.local_dir args)])
               ++ [EvHfApi (hf_sync_loop.token args)])
              {| api_token := hf_sync_loop.token args |}
              (hf_sync_loop.repo_id args) (hf_sync_loop.rtype args)
              (hf_sync_loop.parse_bool (hf_sync_loop.private args))
              (hf_sync_loop.local_dir args) (sync_allow args) (sync_ignore args))
    as (mid & Ht & Hc & Hs).
  fold (once_attempt args env h) in Ht.
  pose proof (sync_once_not_running env
                ((h ++ [EvIsdir (hf_sync_loop.local_dir args)])
                 ++ [EvHfApi (hf_sync_loop.token args)])
                {| api_token := hf_sync_loop.token args |}
                (hf_sync_loop.repo_id args) (hf_sync_loop.rtype args)
                (hf_sync_loop.parse_bool (hf_sync_loop.private args))
                (hf_sync_loop.local_dir args) (sync_allow args) (sync_ignore args))
    as Hnr.
  fold (once_attempt args env h) in Hnr.
  assert (Hcount : forall tail,
            calls is_create_repo tail = false -> calls is_sleep tail = false ->
            count is_create_repo
              (EvIsdir (hf_sync_loop.local_dir args) :: EvHfApi (hf_sync_loop.token args)
               :: (fst (once_attempt args env h) ++ []) ++ tail) = 1%nat
            /\ calls is_sleep
                 (EvIsdir (hf_sync_loop.local_dir args)
                  :: EvHfApi (hf_sync_loop.token args)
                  :: (fst (once_attempt args env h) ++ []) ++ tail) = false).
  { intros tail Hct Hst. rewrite app_nil_r, Ht. split.
    - change (count is_create_repo (?a :: ?b :: (?c :: ?m) ++ ?t))
        with (count is_create_repo ([a; b; c] ++ m ++ t)).
      rewrite !count_app, (count_none _ mid Hc), (count_none _ tail Hct). reflexivity.
    - change (calls is_sleep (?a :: ?b :: (?c :: ?m) ++ ?t))
        with (calls is_sleep ([a; b; c] ++ m ++ t)).
      rewrite !calls_app, Hs, Hst. reflexivity. }
  destruct (snd (once_attempt args env h)) as [[] | e |] eqn:Ea; [| | contradiction].
  - cbn [ret fst snd]. destruct (Hcount [] eq_refl eq_refl) as (H1 & H2).
    repeat split; auto; try discriminate.
    exists []. rewrite !app_nil_r. auto.
  - destruct (Hcount [] eq_refl eq_refl) as (H1 & H2).
    destruct (Hcount [interrupted] eq_refl eq_refl) as (H3 & H4).
    destruct e; cbn [fst snd]; repeat split; auto; try discriminate;
      try (intros [H | H]; discriminate H);
      try (exists []; rewrite !app_nil_r; now auto);
      exists [interrupted]; rewrite !app_nil_r; auto.
Qed.

(** A one-shot sync of a trained directory. *)
Lemma once_makes_one_attempt_witness :
  count is_create_repo
    (fst (hf_sync_loop.main 0 (Listing.sync_args true 1200) Listing.trained [])) = 1%nat
  /\ calls is_sleep
       (fst (hf_sync_loop.main 0 (Listing.sync_args true 1200) Listing.trained []))
     = false.
Proof.
  pose proof (once_makes_one_attempt 0 (Listing.sync_args true 1200) Listing.trained []
                eq_refl eq_refl) as (H1 & H2 & _).
  exact (conj H1 H2).
Defined.

Lemma sync_try_body_calls kind fuel args env h :
  (forall a r t p x, kind (EvCreateRepo a r t p x) = false) ->
  (forall p r, kind (EvGlob p r) = false) ->
  kind EvNow = false ->
  (forall f t, kind (EvPrint f t) = false) ->
  (forall a r t f al ig m, kind (EvUploadFolder a r t f al ig m) = false) ->
  (forall s, kind (EvSleep s) = false) ->
  calls kind (fst (sync_try_body fuel args env h)) = false.
Proof.
  intros Hc Hg Hn Hp Hu Hs. apply calls_false_Forall.
  apply (emits_sync_try_body (fun ev => kind ev = false)); intros; auto.
  - apply Hg.
  - apply Hp.
Qed.

(** X7.  The sync script checks [--local-dir] once, as its first call, and
    does not look at it again however long the loop runs; it builds one
    client, and only after the check passed; it never creates the directory
    and never downloads anything. *)
Theorem sync_checks_directory_once fuel args env h :
  (exists rest,
      fst (hf_sync_loop.main fuel args env h) = EvIsdir (hf_sync_loop.local_dir args) :: rest
      /\ calls is_isdir rest = false)
  /\ count is_hfapi (fst (hf_sync_loop.main fuel args env h))
     = (if env_isdir env h (hf_sync_loop.local_dir args) then 1%nat else 0%nat)
  /\ calls is_makedirs (fst (hf_sync_loop.main fuel args env h)) = false
  /\ calls is_snapshot_download (fst (hf_sync_loop.main fuel args env h)) = false.
Proof.
  destruct (env_isdir env h (hf_sync_loop.local_dir args)) eqn:Hd.
  - rewrite (sync_main_try env h fuel args Hd). cbv zeta. cbn [fst].
    set (h0 := (h ++ [EvIsdir (hf_sync_loop.local_dir args)])
               ++ [EvHfApi (hf_sync_loop.token args)]).
    set (tail := match snd (sync_try_body fuel args env h0) with
                 | Raise KeyboardInterrupt => [interrupted]
                 | _ => []
                 end).
    assert (Htail : forall kind, (forall f t, kind (EvPrint f t) = false) ->
                                 calls kind tail = false).
    { intros kind Hk. subst tail.
      destruct (snd (sync_try_body fuel args env h0)) as [c | [] |]; cbn;
        unfold interrupted; rewrite ?Hk; reflexivity. }
    assert (Hbody : forall kind,
               (forall a r t p x, kind (EvCreateRepo a r t p x) = false) ->
               (forall p r, kind (EvGlob p r) = false) ->
               kind EvNow = false ->
               (forall f t, kind (EvPrint f t) = false) ->
               (forall a r t f al ig m, kind (EvUploadFolder a r t f al ig m) = false) ->
               (forall s, kind (EvSleep s) = false) ->
               calls kind (fst (sync_try_body fuel args env h0) ++ tail) = false).
    { intros kind Hc Hg Hn Hp Hu Hs.
      rewrite calls_app, sync_try_body_calls, Htail by auto. reflexivity. }
    split; [| split; [| split]].
    + eexists. split; [reflexivity |].
      change (calls is_isdir (?a :: ?t)) with (calls is_isdir t).
      apply Hbody; reflexivity.
    + change (count is_hfapi (?a :: ?b :: ?t)) with (count is_hfapi ([a; b] ++ t)).
      rewrite count_app, (count_none is_hfapi (_ ++ tail)) by (apply Hbody; reflexivity).
      reflexivity.
    + change (calls is_makedirs (?a :: ?b :: ?t)) with (calls is_makedirs t).
      apply Hbody; reflexivity.
    + change (calls is_snapshot_download (?a :: ?b :: ?t))
        with (calls is_snapshot_download t).
      apply Hbody; reflexivity.
  - rewrite (sync_main_not_a_directory env h fuel args Hd). cbn [fst].
    split; [| repeat split]. eexists. split; reflexivity.
Qed.

(** X8.  Every hub call of a run of the sync script goes to the one
    repository named on the command line, with the one client built from
    [--token]: each [create_repo] call is for [--repo-id] and [--repo-type]
    with [exist_ok=True], and each [upload_folder] call is for the same
    repository and uploads [--local-dir]. *)
Theorem sync_calls_target_one_repository fuel args env h ev :
  In ev (fst (hf_sync_loop.main fuel args env h)) ->
  let api := {| api_token := hf_sync_loop.token args |} in
  (is_create_repo ev = true ->
   ev = EvCreateRepo api (hf_sync_loop.repo_id args) (hf_sync_loop.rtype args)
          (hf_sync_loop.parse_bool (hf_sync_loop.private args)) true)
  /\ (is_upload_folder ev = true ->
      exists msg,
        ev = EvUploadFolder api (hf_sync_loop.repo_id args) (hf_sync_loop.rtype args)
               (hf_sync_loop.local_dir args) (sync_allow args) (sync_ignore args) msg).
Proof.
  intros Hin api.
  pose proof (emits_sync_main
    (fun ev =>
       (is_create_repo ev = true ->
        ev = EvCreateRepo api (hf_sync_loop.repo_id args) (hf_sync_loop.rtype args)
               (hf_sync_loop.parse_bool (hf_sync_loop.private args)) true)
       /\ (is_upload_folder ev = true ->
           exists msg,
             ev = EvUploadFolder api (hf_sync_loop.repo_id args) (hf_sync_loop.rtype args)
                    (hf_sync_loop.local_dir args) (sync_allow args) (sync_ignore args) msg))
    fuel args) as H.
  cbv zeta in H.
  assert (He : emits
    (fun ev =>
       (is_create_repo ev = true ->
        ev = EvCreateRepo api (hf_sync_loop.repo_id args) (hf_sync_loop.rtype args)
               (hf_sync_loop.parse_bool (hf_sync_loop.private args)) true)
       /\ (is_upload_folder ev = true ->
           exists msg,
             ev = EvUploadFolder api (hf_sync_loop.repo_id args) (hf_sync_loop.rtype args)
                    (hf_sync_loop.local_dir args) (sync_allow args) (sync_ignore args) msg))
    (hf_sync_loop.main fuel args)).
  { apply H; intros; (split; [try discriminate | try discriminate]); eauto. }
  specialize (He env h). rewrite Forall_forall in He. exact (He ev Hin).
Qed.

(** The upload of a one-shot sync of a trained directory. *)
Lemma sync_calls_target_one_repository_witness :
  exists msg,
    Listing.the_upload
    = EvUploadFolder {| api_token := Some "hf_token"%string |}
        "user/nanochat-checkpoints" model "/data/nanochat"
        hf_sync_loop.DEFAULT_ALLOW_PATTERNS hf_sync_loop.DEFAULT_IGNORE_PATTERNS msg.
Proof.
  refine (proj2 (sync_calls_target_one_repository 0 (Listing.sync_args true 1200)
                   Listing.trained [] Listing.the_upload _) eq_refl).
  vm_compute. auto 12.
Defined.

(** A kind of call that no sync attempt makes in [env] is not made by the
    run, which adds only the directory check, the client, lines and sleeps. *)
Lemma sync_main_calls_from_attempts kind fuel args env h :
  (forall f t, kind (EvPrint f t) = false) ->
  (forall s, kind (EvSleep s) = false) ->
  (forall d, kind (EvIsdir d) = false) ->
  (forall tok, kind (EvHfApi tok) = false) ->
  (forall h',
      calls kind
        (fst (hf_sync_loop.sync_once {| api_token := hf_sync_loop.token args |}
                (hf_sync_loop.repo_id args) (hf_sync_loop.rtype args)
                (hf_sync_loop.parse_bool (hf_sync_loop.private args))
                (hf_sync_loop.local_dir args) (sync_allow args) (sync_ignore args)
                env h')) = false) ->
  calls kind (fst (hf_sync_loop.main fuel args env h)) = false.
Proof.
  intros Hp Hs Hd Ha Hattempt.
  destruct (env_isdir env h (hf_sync_loop.local_dir args)) eqn:Hdir.
  - rewrite (sync_main_try env h fuel args Hdir). cbv zeta. cbn [fst].
    change (calls kind (?a :: ?b :: ?t)) with (kind a || (kind b || calls kind t))%bool.
    rewrite Hd, Ha, calls_app. cbn [orb].
    set (h0 := (h ++ [EvIsdir (hf_sync_loop.local_dir args)])
               ++ [EvHfApi (hf_sync_loop.token args)]).
    assert (Hbody : calls kind (fst (sync_try_body fuel args env h0)) = false).
    { unfold sync_try_body. destruct (hf_sync_loop.once args).
      - rewrite bind_trace, calls_app, Hattempt.
        destruct (snd (hf_sync_loop.sync_once _ _ _ _ _ _ _ env h0)); reflexivity.
      - apply while_true_calls. intros h'. rewrite loop_body_run. cbv zeta.
        destruct (snd (hf_sync_loop.sync_once _ _ _ _ _ _ _ env h')) as [[] | e |];
          [| destruct (isinstance_Exception e) |]; cbn [fst];
          rewrite ?calls_app, Hattempt; cbn; rewrite ?Hp, ?Hs; reflexivity. }
    rewrite Hbody.
    destruct (snd (sync_try_body fuel args env h0)) as [c | [] |]; cbn;
      unfold interrupted; rewrite ?Hp; reflexivity.
  - rewrite (sync_main_not_a_directory env h fuel args Hdir). cbn.
    now rewrite Hd, Hp.
Qed.

(** X9.  Nothing is uploaded to a repository the hub refuses to create:
    while every [create_repo] call raises, a run of the sync script, in
    either mode and for however many iterations, neither looks for local
    files nor calls [upload_folder]. *)
Theorem no_upload_while_create_repo_raises fuel args env h :
  create_repo_always_raises env ->
  calls is_upload_folder (fst (hf_sync_loop.main fuel args env h)) = false
  /\ calls is_glob (fst (hf_sync_loop.main fuel args env h)) = false.
Proof.
  intros Hrefuse.
  assert (Hattempt : forall h',
    fst (hf_sync_loop.sync_once {| api_token := hf_sync_loop.token args |}
           (hf_sync_loop.repo_id args) (hf_sync_loop.rtype args)
           (hf_sync_loop.parse_bool (hf_sync_loop.private args))
           (hf_sync_loop.local_dir args) (sync_allow args) (sync_ignore args) env h')
    = [EvCreateRepo {| api_token := hf_sync_loop.token args |}
         (hf_sync_loop.repo_id args) (hf_sync_loop.rtype args)
         (hf_sync_loop.parse_bool (hf_sync_loop.private args)) true]).
  { intros h'. rewrite sync_once_trace.
    destruct (env_create_repo env h' _ _ _ _ true) eqn:E; [reflexivity |].
    now apply Hrefuse in E. }
  split; apply sync_main_calls_from_attempts; try reflexivity;
    intros h'; rewrite Hattempt; reflexivity.
Qed.

Lemma hub_down_always_raises env : create_repo_always_raises (Listing.hub_down env).
Proof. intros h api r t p x. discriminate. Qed.

(** Five iterations against a hub that refuses: no upload. *)
Lemma no_upload_while_create_repo_raises_witness :
  calls is_upload_folder
    (fst (hf_sync_loop.main 5 (Listing.sync_args false 1200)
            (Listing.hub_down Listing.trained) [])) = false.
Proof.
  exact (proj1 (no_upload_while_create_repo_raises 5 (Listing.sync_args false 1200)
                  (Listing.hub_down Listing.trained) []
                  (hub_down_always_raises Listing.trained))).
Defined.

(** X10.  Nothing is uploaded from a directory without artifacts: on a file
    system where no allow pattern of the run has a match, the sync script
    never calls [upload_folder], in either mode and for however many
    iterations. *)
Theorem no_upload_while_nothing_matches fuel args env fs h :
  glob_snapshot env fs ->
  (forall pattern,
      In pattern (sync_allow args) ->
      fs (os_path_join (hf_sync_loop.local_dir args) [pattern]) true = []) ->
  calls is_upload_folder (fst (hf_sync_loop.main fuel args env h)) = false.
Proof.
  intros Hfs Hnone. apply sync_main_calls_from_attempts; try reflexivity.
  intros h'. rewrite sync_once_trace.
  change (calls is_upload_folder (?a :: ?t)) with (calls is_upload_folder t).
  destruct (env_create_repo env h' _ _ _ _ true); [reflexivity |].
  destruct (calls is_upload_folder _) eqn:E; [| reflexivity].
  apply after_create_repo_uploads in E.
  rewrite (any_matches_none env fs _ _ _ Hfs Hnone) in E. discriminate E.
Qed.

(** Five iterations over an empty directory: no upload. *)
Lemma no_upload_while_nothing_matches_witness :
  calls is_upload_folder
    (fst (hf_sync_loop.main 5 (Listing.sync_args false 1200) Listing.fresh [])) = false.
Proof.
  refine (no_upload_while_nothing_matches 5 (Listing.sync_args false 1200) Listing.fresh
            (Listing.glob ["/data/nanochat"%string]) [] _ _).
  - intros h pattern recursive. reflexivity.
  - intros pattern [<- | [<- | [<- | [<- | [<- | [<- | [<- | []]]]]]]]; reflexivity.
Defined.

(** ** The restore script as a whole *)

(** The four ways a run of the restore script goes, each with what the
    environment answered. *)
Lemma restore_main_shapes args env h :
  let dir := hf_restore.local_dir args in
  let pre :=
    EvMakedirs dir true ::
    (if hf_restore.skip_if_local args then [EvGlob (local_checkpoints_pattern dir) false]
     else []) in
  let run := hf_restore.main args env h in
  (exists e, env_makedirs env h dir true = Some e /\ run = ([EvMakedirs dir true], Raise e))
  \/ (exists e,
         env_makedirs env h dir true = None
         /\ hf_restore.skip_if_local args = true
         /\ restore_check args env h = inl e
         /\ run = ([EvMakedirs dir true; EvGlob (local_checkpoints_pattern dir) false],
                   Raise e))
  \/ (exists found,
         env_makedirs env h dir true = None
         /\ hf_restore.skip_if_local args = true
         /\ restore_check args env h = inr found
         /\ found <> []
         /\ run =
            ([EvMakedirs dir true; EvGlob (local_checkpoints_pattern dir) false;
              EvPrint stdout
                "[hf-restore] local base checkpoints already exist, skipping restore"],
             Ret 0))
  \/ (restore_reaches_download args env h
      /\ run =
         match restore_answer args env h with
         | None =>
             (pre ++ [restore_start args; restore_download args (restore_allow args);
                      restore_complete], Ret 0)
         | Some e =>
             if isinstance_Exception e then
               (pre ++ [restore_start args; restore_download args (restore_allow args);
                        EvPrint stderr (restore_log e)], Ret 0)
             else
               (pre ++ [restore_start args; restore_download args (restore_allow args)],
                Raise e)
         end).
Proof.
  intros dir pre run. subst run.
  destruct (env_makedirs env h dir true) as [e |] eqn:Hm.
  { left. exists e. split; [reflexivity |]. now apply restore_main_makedirs_raises. }
  right.
  assert (Hdl :
    hf_restore.skip_if_local args = false \/ restore_check args env h = inr [] ->
    restore_reaches_download args env h
    /\ hf_restore.main args env h =
       match restore_answer args env h with
       | None =>
           (pre ++ [restore_start args; restore_download args (restore_allow args);
                    restore_complete], Ret 0)
       | Some e =>
           if isinstance_Exception e then
             (pre ++ [restore_start args; restore_download args (restore_allow args);
                      EvPrint stderr (restore_log e)], Ret 0)
           else
             (pre ++ [restore_start args; restore_download args (restore_allow args)],
              Raise e)
       end).
  { intros Hskip. split; [split; assumption |].
    exact (restore_main_downloads env h args Hm Hskip). }
  assert (Hs : hf_restore.skip_if_local args = true \/ hf_restore.skip_if_local args = false)
    by (destruct (hf_restore.skip_if_local args); auto).
  destruct Hs as [Hs | Hs]; [| right; right; auto].
  destruct (restore_check args env h) as [e | [| p ps]] eqn:Hg.
  - left. exists e. repeat split; auto. now apply restore_main_glob_raises.
  - right. right. auto.
  - right. left. exists (p :: ps). repeat split; auto; try discriminate.
    apply (restore_main_skips env h args (p :: ps)); auto. discriminate.
Qed.

(** X11.  Which errors end the restore script.  An error of [os.makedirs]
    and an error of the lookup for local checkpoints leave [main] at once,
    before anything is downloaded.  An error of [snapshot_download] leaves
    [main] exactly when it does not derive from [Exception]; otherwise
    [main] returns 0. *)
Theorem restore_fatal_errors args env h e :
  (env_makedirs env h (hf_restore.local_dir args) true = Some e ->
   snd (hf_restore.main args env h) = Raise e
   /\ calls is_snapshot_download (fst (hf_restore.main args env h)) = false
   /\ calls is_glob (fst (hf_restore.main args env h)) = false)
  /\ (env_makedirs env h (hf_restore.local_dir args) true = None ->
      hf_restore.skip_if_local args = true ->
      restore_check args env h = inl e ->
      snd (hf_restore.main args env h) = Raise e
      /\ calls is_snapshot_download (fst (hf_restore.main args env h)) = false)
  /\ (restore_reaches_download args env h ->
      restore_answer args env h = Some e ->
      calls is_snapshot_download (fst (hf_restore.main args env h)) = true
      /\ (snd (hf_restore.main args env h) = Raise e <-> isinstance_Exception e = false)
      /\ (snd (hf_restore.main args env h) = Ret 0 <-> isinstance_Exception e = true)).
Proof.
  split; [| split].
  - intros Hm. rewrite (restore_main_makedirs_raises env h args e Hm).
    repeat split; reflexivity.
  - intros Hm Hs Hg. rewrite (restore_main_glob_raises env h args e Hm Hs Hg).
    split; reflexivity.
  - intros (Hm & Hskip) Ha.
    pose proof (restore_main_downloads env h args Hm Hskip) as Hrun. cbv zeta in Hrun.
    unfold restore_answer, restore_allow in Ha. rewrite Ha in Hrun. rewrite Hrun.
    destruct (isinstance_Exception e) eqn:He; cbn [fst snd].
    + split; [| split].
      * destruct (hf_restore.skip_if_local args); reflexivity.
      * split; discriminate.
      * split; reflexivity.
    + split; [| split].
      * destruct (hf_restore.skip_if_local args); reflexivity.
      * split; reflexivity.
      * split; discriminate.
Qed.

(** [--local-dir] names a regular file: the script ends in [makedirs] and
    downloads nothing. *)
Lemma restore_fatal_errors_witness :
  snd (hf_restore.main Listing.restore_args (Listing.not_a_directory Listing.missing) [])
  = Raise (OtherException "[Errno 17] File exists: '/data/nanochat'")
  /\ calls is_snapshot_download
       (fst (hf_restore.main Listing.restore_args
               (Listing.not_a_directory Listing.missing) [])) = false
  /\ calls is_glob
       (fst (hf_restore.main Listing.restore_args
               (Listing.not_a_directory Listing.missing) [])) = false.
Proof.
  exact (proj1 (restore_fatal_errors Listing.restore_args
                  (Listing.not_a_directory Listing.missing) []
                  (OtherException "[Errno 17] File exists: '/data/nanochat'"))
           eq_refl).
Defined.

(** X12.  The restore script downloads at most once per run, always with
    the repository, token and directory of the command line,
    [local_dir_use_symlinks=False] and [resume_download=True].  It calls
    [makedirs] once, first of all, and it never creates a repository,
    uploads, builds a client, or sleeps. *)
Theorem restore_downloads_at_most_once args env h :
  (count is_snapshot_download (fst (hf_restore.main args env h)) <= 1)%nat
  /\ (forall ev,
         In ev (fst (hf_restore.main args env h)) ->
         is_snapshot_download ev = true ->
         ev = EvSnapshotDownload (hf_restore.repo_id args) (hf_restore.rtype args)
                (hf_restore.token args) (hf_restore.local_dir args) false
                (restore_allow args) true)
  /\ count is_makedirs (fst (hf_restore.main args env h)) = 1%nat
  /\ calls is_create_repo (fst (hf_restore.main args env h)) = false
  /\ calls is_upload_folder (fst (hf_restore.main args env h)) = false
  /\ calls is_hfapi (fst (hf_restore.main args env h)) = false
  /\ calls is_sleep (fst (hf_restore.main args env h)) = false.
Proof.
  assert (Hev : forall ev,
            In ev (fst (hf_restore.main args env h)) ->
            is_snapshot_download ev = true ->
            ev = EvSnapshotDownload (hf_restore.repo_id args) (hf_restore.rtype args)
                   (hf_restore.token args) (hf_restore.local_dir args) false
                   (restore_allow args) true).
  { intros ev Hin.
    pose proof (emits_restore_main
      (fun ev => is_snapshot_download ev = true ->
                 ev = EvSnapshotDownload (hf_restore.repo_id args) (hf_restore.rtype args)
                        (hf_restore.token args) (hf_restore.local_dir args) false
                        (restore_allow args) true) args) as H.
    cbv zeta in H.
    assert (He : emits
      (fun ev => is_snapshot_download ev = true ->
                 ev = EvSnapshotDownload (hf_restore.repo_id args) (hf_restore.rtype args)
                        (hf_restore.token args) (hf_restore.local_dir args) false
                        (restore_allow args) true) (hf_restore.main args)).
    { apply H; try discriminate; intros; try discriminate. reflexivity. }
    specialize (He env h). rewrite Forall_forall in He. exact (He ev Hin). }
  split; [| split; [exact Hev |]].
  - destruct (restore_main_shapes args env h)
      as [(e & _ & ->) | [(e & _ & _ & _ & ->) | [(found & _ & _ & _ & _ & ->)
                                                 | (_ & ->)]]];
      cbn [fst]; try (cbn; lia).
    destruct (restore_answer args env h) as [e |];
      [destruct (isinstance_Exception e) |]; cbn [fst];
      destruct (hf_restore.skip_if_local args); cbn; lia.
  - destruct (restore_main_shapes args env h)
      as [(e & _ & ->) | [(e & _ & _ & _ & ->) | [(found & _ & _ & _ & _ & ->)
                                                 | (_ & ->)]]];
      cbn [fst]; try (repeat split; reflexivity).
    destruct (restore_answer args env h) as [e |];
      [destruct (isinstance_Exception e) |]; cbn [fst];
      destruct (hf_restore.skip_if_local args); repeat split; reflexivity.
Qed.

(** The download of a restore into a directory without checkpoints. *)
Lemma restore_downloads_at_most_once_witness :
  Listing.the_download
  = EvSnapshotDownload "user/nanochat-checkpoints" model (Some "hf_token"%string)
      "/data/nanochat" false (restore_allow Listing.restore_args) true.
Proof.
  refine (proj1 (proj2 (restore_downloads_at_most_once Listing.restore_args
                          Listing.tokenizer_only []))
            Listing.the_download _ eq_refl).
  vm_compute. auto 10.
Defined.

(** X13.  Without [--skip-if-local] the restore script does not look at the
    local directory at all: once [makedirs] has returned it starts the
    download, whether or not checkpoints are already there. *)
Theorem restore_without_skip_always_downloads args env h :
  hf_restore.skip_if_local args = false ->
  env_makedirs env h (hf_restore.local_dir args) true = None ->
  calls is_glob (fst (hf_restore.main args env h)) = false
  /\ exists rest,
       fst (hf_restore.main args env h)
       = EvMakedirs (hf_restore.local_dir args) true :: restore_start args
         :: restore_download args (restore_allow args) :: rest.
Proof.
  intros Hs Hm.
  rewrite (restore_main_downloads env h args Hm (or_introl Hs)). rewrite Hs.
  destruct (env_snapshot_download env _ _ _ _ (hf_restore.local_dir args) false _ true)
    as [e |]; [destruct (isinstance_Exception e) |];
    (split; [reflexivity | eexists; reflexivity]).
Qed.

(** A directory that already holds a trained model is restored into all the
    same. *)
Lemma restore_without_skip_always_downloads_witness :
  calls is_glob
    (fst (hf_restore.main
            {| hf_restore.repo_id := "user/nanochat-checkpoints";
               hf_restore.rtype := model;
               hf_restore.local_dir := "/data/nanochat";
               hf_restore.allow_pattern := [];
               hf_restore.token := None;
               hf_restore.skip_if_local := false |}%string Listing.trained [])) = false
  /\ exists rest,
       fst (hf_restore.main
              {| hf_restore.repo_id := "user/nanochat-checkpoints";
                 hf_restore.rtype := model;
                 hf_restore.local_dir := "/data/nanochat";
                 hf_restore.allow_pattern := [];
                 hf_restore.token := None;
                 hf_restore.skip_if_local := false |}%string Listing.trained [])
       = EvMakedirs "/data/nanochat" true
         :: EvPrint stdout
              "[hf-restore] restoring from model:user/nanochat-checkpoints -> /data/nanochat"
         :: EvSnapshotDownload "user/nanochat-checkpoints" model None "/data/nanochat" false
              hf_restore.DEFAULT_ALLOW_PATTERNS true
         :: rest.
Proof.
  exact (restore_without_skip_always_downloads
           {| hf_restore.repo_id := "user/nanochat-checkpoints";
              hf_restore.rtype := model;
              hf_restore.local_dir := "/data/nanochat";
              hf_restore.allow_pattern := [];
              hf_restore.token := None;
              hf_restore.skip_if_local := false |}%string Listing.trained []
           eq_refl eq_refl).
Defined.

(** X14.  The lines of the restore script can be trusted.
    ["[hf-restore] restore complete"] is printed exactly when the download
    was started and [snapshot_download] returned; something is written to
    stderr exactly when the download was started and raised an error
    deriving from [Exception], and it is the line for that error; in both
    cases the script returns 0. *)
Theorem restore_lines_tell_the_outcome args env h :
  (In restore_complete (fst (hf_restore.main args env h))
   <-> restore_reaches_download args env h /\ restore_answer args env h = None)
  /\ (forall text,
         In (EvPrint stderr text) (fst (hf_restore.main args env h))
         <-> restore_reaches_download args env h
             /\ exists e,
                  restore_answer args env h = Some e
                  /\ isinstance_Exception e = true
                  /\ text = restore_log e)
  /\ (In restore_complete (fst (hf_restore.main args env h))
      \/ (exists text, In (EvPrint stderr text) (fst (hf_restore.main args env h))) ->
      snd (hf_restore.main args env h) = Ret 0).
Proof.
  assert (Hnot : forall pre : list event,
            (pre = [] \/ exists p r, pre = [EvGlob p r]) ->
            forall f t, ~ In (EvPrint f t) (EvMakedirs (hf_restore.local_dir args) true :: pre)).
  { intros pre [-> | (p & r & ->)] f t [H | H]; try discriminate H.
    - destruct H.
    - destruct H as [H | []]. discriminate H. }
  assert (Hpre :
    (if hf_restore.skip_if_local args
     then [EvGlob (local_checkpoints_pattern (hf_restore.local_dir args)) false]
     else []) = []
    \/ exists p r,
         (if hf_restore.skip_if_local args
          then [EvGlob (local_checkpoints_pattern (hf_restore.local_dir args)) false]
          else []) = [EvGlob p r])
    by (destruct (hf_restore.skip_if_local args); eauto).
  destruct (restore_main_shapes args env h)
    as [(e & Hm & ->) | [(e & Hm & Hs & Hg & ->) | [(found & Hm & Hs & Hg & Hf & ->)
                                                   | (Hr & ->)]]];
    cbn [fst snd].
  - assert (Hno : ~ restore_reaches_download args env h)
      by (intros (Hm' & _); congruence).
    split; [| split].
    + split; [intros [H | []]; discriminate H | intros (H & _); contradiction].
    + intros text. split; [intros [H | []]; discriminate H | intros (H & _); contradiction].
    + intros [[H | []] | (text & [H | []])]; discriminate H.
  - assert (Hno : ~ restore_reaches_download args env h)
      by (intros (_ & [Hs' | Hg']); congruence).
    split; [| split].
    + split; [intros [H | [H | []]]; discriminate H | intros (H & _); contradiction].
    + intros text.
      split; [intros [H | [H | []]]; discriminate H | intros (H & _); contradiction].
    + intros [[H | [H | []]] | (text & [H | [H | []]])]; discriminate H.
  - assert (Hno : ~ restore_reaches_download args env h).
    { intros (_ & [Hs' | Hg']); [congruence |]. rewrite Hg in Hg'.
      injection Hg' as ->. contradiction. }
    split; [| split].
    + split; [intros [H | [H | [H | []]]]; discriminate H | intros (H & _); contradiction].
    + intros text.
      split; [intros [H | [H | [H | []]]]; discriminate H
             | intros (H & _); contradiction].
    + intros _. reflexivity.
  - destruct (restore_answer args env h) as [e |] eqn:Ea;
      [destruct (isinstance_Exception e) eqn:He |]; cbn [fst snd].
    + split; [| split].
      * split; [| intros (_ & H); discriminate H].
        intros H. change (?a :: ?p ++ ?t) with ((a :: p) ++ t) in H.
        apply in_app_or in H. destruct H as [H | [H | [H | [H | []]]]];
          try discriminate H. now apply (Hnot _ Hpre) in H.
      * intros text. split.
        -- intros H. change (?a :: ?p ++ ?t) with ((a :: p) ++ t) in H.
           apply in_app_or in H. destruct H as [H | [H | [H | [H | []]]]];
             try discriminate H; [now apply (Hnot _ Hpre) in H |].
           injection H as <-. split; [exact Hr |]. exists e. auto.
        -- intros (_ & e' & He' & _ & ->). injection He' as <-.
           right. apply in_or_app. right. cbn. auto.
      * intros _. reflexivity.
    + split; [| split].
      * split; [| intros (_ & H); discriminate H].
        intros H. change (?a :: ?p ++ ?t) with ((a :: p) ++ t) in H.
        apply in_app_or in H. destruct H as [H | [H | [H | []]]];
          try discriminate H. now apply (Hnot _ Hpre) in H.
      * intros text. split.
        -- intros H. change (?a :: ?p ++ ?t) with ((a :: p) ++ t) in H.
           apply in_app_or in H. destruct H as [H | [H | [H | []]]];
             try discriminate H. now apply (Hnot _ Hpre) in H.
        -- intros (_ & e' & He' & Hex & _). injection He' as <-. congruence.
      * intros [H | (text & H)]; change (?a :: ?p ++ ?t) with ((a :: p) ++ t) in H;
          apply in_app_or in H; destruct H as [H | [H | [H | []]]];
          try discriminate H; now apply (Hnot _ Hpre) in H.
    + split; [| split].
      * split; [intros _; auto |].
        intros _. right. apply in_or_app. right. cbn. auto.
      * intros text. split; [| intros (_ & e' & He' & _); discriminate He'].
        intros H. change (?a :: ?p ++ ?t) with ((a :: p) ++ t) in H.
        apply in_app_or in H. destruct H as [H | [H | [H | [H | []]]]];
          try discriminate H. now apply (Hnot _ Hpre) in H.
      * intros _. reflexivity.
Qed.

(** A restore into a directory without checkpoints says that it completed. *)
Lemma restore_lines_tell_the_outcome_witness :
  In restore_complete
     (fst (hf_restore.main Listing.restore_args Listing.tokenizer_only [])).
Proof.
  apply (proj1 (restore_lines_tell_the_outcome Listing.restore_args
                  Listing.tokenizer_only [])).
  split; [split; [reflexivity | right; reflexivity] | reflexivity].
Defined.

(** ** Reading [--private] *)

Lemma lower_ascii_idem c : lower_ascii (lower_ascii c) = lower_ascii c.
Proof. destruct c as [[] [] [] [] [] [] [] []]; reflexivity. Qed.

Lemma lower_idem s : lower (lower s) = lower s.
Proof.
  induction s as [| c s IH]; simpl; [reflexivity |].
  now rewrite lower_ascii_idem, IH.
Qed.

Lemma lower_app a b : lower (a ++ b) = (lower a ++ lower b)%string.
Proof. induction a as [| c a IH]; simpl; [reflexivity | now rewrite IH]. Qed.

Lemma no_word_ends_with_space s w :
  In w ["1"; "true"; "yes"; "y"]%string -> (s ++ " ")%string <> w.
Proof.
  intros [<- | [<- | [<- | [<- | []]]]];
    destruct s as [| a [| b [| c [| d [| e s]]]]]; simpl; discriminate.
Qed.

(** X15.  [parse_bool] does not care about letter case, and it does not
    strip anything: two values that differ only in case are read alike, and
    a value with a leading or a trailing space is read as [False], like the
    empty value. *)
Theorem parse_bool_ignores_case_only :
  (forall v w, lower v = lower w -> hf_sync_loop.parse_bool v = hf_sync_loop.parse_bool w)
  /\ (forall v, hf_sync_loop.parse_bool (lower v) = hf_sync_loop.parse_bool v)
  /\ (forall v, hf_sync_loop.parse_bool (" " ++ v) = false)
  /\ (forall v, hf_sync_loop.parse_bool (v ++ " ") = false)
  /\ hf_sync_loop.parse_bool "" = false.
Proof.
  split; [| split; [| split; [| split]]].
  - intros v w H. unfold hf_sync_loop.parse_bool. now rewrite H.
  - intros v. unfold hf_sync_loop.parse_bool. now rewrite lower_idem.
  - intros v. reflexivity.
  - intros v. unfold hf_sync_loop.parse_bool.
    destruct (str_in (lower (v ++ " ")) ["1"; "true"; "yes"; "y"]%string) eqn:E;
      [| reflexivity].
    apply str_in_In in E. rewrite lower_app in E.
    exfalso. exact (no_word_ends_with_space (lower v) _ E eq_refl).
  - reflexivity.
Qed.

(** [--private TRUE] is read as [--private true]. *)
Lemma parse_bool_ignores_case_only_witness :
  hf_sync_loop.parse_bool "TRUE" = hf_sync_loop.parse_bool "true".
Proof.
  exact (proj1 parse_bool_ignores_case_only "TRUE"%string "true"%string eq_refl).
Defined.
